(** * electron-bot: the logging cogs and the sudo cog

    A shallow embedding of [bot/cogs/logging/server_log.py],
    [bot/cogs/logging/voice_log.py] and [bot/cogs/sudo.py], and the
    properties of the channel-update formatter, the log-channel resolver,
    the voice-state listener and the owner check.

    Python objects are modelled by what the cogs read off them; exceptions
    are explicit ([result]); the side effects of a coroutine (messages sent,
    reactions, the bot closing) are recorded in a trace ([World]). *)

From Stdlib Require Import ZArith List String Ascii DecimalString.
From stdpp Require Import base decidable option list strings gmap pretty.

Local Open Scope Z_scope.
Local Open Scope string_scope.

(** ** Python values and exceptions *)

Inductive exn :=
| AttributeError
| UnboundLocalError
| TypeError
| ValueError
| CheckFailure
| ExtensionNotFound
| ExtensionAlreadyLoaded
| ExtensionNotLoaded
| ExtensionFailed
| NoEntryPointError
| ModuleNotFoundError.

Inductive result (A : Type) :=
| Ok (a : A)
| Raise (e : exn).
Arguments Ok {A} a.
Arguments Raise {A} e.

#[export] Instance result_ret : MRet result := fun _ a => Ok a.
#[export] Instance result_bind : MBind result := fun _ _ f m =>
  match m with
  | Ok a => f a
  | Raise e => Raise e
  end.

(** The values the formatter reads off a channel and compares with [!=].
    [VChannel] is a discord channel object (equal when the ids are, printed
    as its name); [VMethod] is a bound method: [self] is the receiver, by
    whose identity CPython 3.8 and later compare two bound methods of one
    function, [self_repr] the receiver's [repr] and [returns] what calling
    the method yields. *)
Inductive value :=
| VNone
| VBool (b : bool)
| VInt (z : Z)
| VStr (s : string)
| VChannel (id : Z) (name : string)
| VMethod (qualname : string) (self : Z) (self_repr : string) (returns : bool).

Definition LF : string := String "010"%char EmptyString.

(** [a == b] *)
Definition py_eq (v w : value) : bool :=
  match v, w with
  | VNone, VNone => true
  | VBool a, VBool b => Bool.eqb a b
  | VInt a, VInt b => Z.eqb a b
  | VBool a, VInt b | VInt b, VBool a => Z.eqb (if a then 1 else 0) b
  | VStr a, VStr b => String.eqb a b
  | VChannel a _, VChannel b _ => Z.eqb a b
  | VMethod f a _ _, VMethod g b _ _ => String.eqb f g && Z.eqb a b
  | _, _ => false
  end.

(** [a != b] *)
Definition py_ne (v w : value) : bool := negb (py_eq v w).

(** [str(v)], as an f-string renders a value. *)
Definition py_str (v : value) : string :=
  match v with
  | VNone => "None"
  | VBool true => "True"
  | VBool false => "False"
  | VInt z => pretty z
  | VStr s => s
  | VChannel _ n => n
  | VMethod f _ r _ => "<bound method " +:+ f +:+ " of " +:+ r +:+ ">"
  end.

(** [round(n / d)] for integers [n] and [d > 0]: the nearest integer, a tie
    going to the even one.  Python divides in floating point; the quotient
    of an integer below 2^53 by 1000 rounds to the same integer. *)
Definition py_round_div (n d : Z) : Z :=
  let q := n / d in
  let r := n mod d in
  if Z.ltb (2 * r) d then q
  else if Z.ltb d (2 * r) then q + 1
  else if Z.even q then q else q + 1.

(** [str.replace("_", " ")] and [str.capitalize()] on ASCII text. *)
Definition is_upper (c : ascii) : bool :=
  let n := nat_of_ascii c in (Nat.leb 65 n && Nat.leb n 90)%bool.
Definition is_lower (c : ascii) : bool :=
  let n := nat_of_ascii c in (Nat.leb 97 n && Nat.leb n 122)%bool.
Definition to_upper (c : ascii) : ascii :=
  if is_lower c then ascii_of_nat (nat_of_ascii c - 32) else c.
Definition to_lower (c : ascii) : ascii :=
  if is_upper c then ascii_of_nat (nat_of_ascii c + 32) else c.

Fixpoint map_chars (f : ascii -> ascii) (s : string) : string :=
  match s with
  | EmptyString => EmptyString
  | String c r => String (f c) (map_chars f r)
  end.

Definition replace_underscores (s : string) : string :=
  map_chars (fun c => if Ascii.eqb c "_" then " "%char else c) s.

Definition capitalize (s : string) : string :=
  match s with
  | EmptyString => EmptyString
  | String c r => String (to_upper c) (map_chars to_lower r)
  end.

(** ** Embeds *)

Inductive Color := dark_blue | blue | dark_orange | red.

Record EmbedField := {
  field_name : string;
  field_value : string;
  inline : bool
}.

Record Embed := {
  title : string;
  description : string;
  color : option Color;
  fields : list EmbedField;
  timestamp : option Z;
  thumbnail : option string;
  author : option (string * string);
  footer : option string
}.

(** [Embed(title=..., description=..., color=...)] *)
Definition mk_embed (t d : string) (c : Color) : Embed :=
  {| title := t; description := d; color := Some c; fields := [];
     timestamp := None; thumbnail := None; author := None; footer := None |}.

(** [embed.add_field(name=..., value=..., inline=...)] *)
Definition add_field (n v : string) (i : bool) (e : Embed) : Embed :=
  {| title := title e; description := description e; color := color e;
     fields := fields e ++ [{| field_name := n; field_value := v; inline := i |}];
     timestamp := timestamp e; thumbnail := thumbnail e; author := author e;
     footer := footer e |}.

(** [embed.timestamp = t] *)
Definition set_timestamp (t : Z) (e : Embed) : Embed :=
  {| title := title e; description := description e; color := color e;
     fields := fields e; timestamp := Some t; thumbnail := thumbnail e;
     author := author e; footer := footer e |}.

(** [embed.set_thumbnail(url=...)] *)
Definition set_thumbnail (url : string) (e : Embed) : Embed :=
  {| title := title e; description := description e; color := color e;
     fields := fields e; timestamp := timestamp e; thumbnail := Some url;
     author := author e; footer := footer e |}.

(** [embed.set_author(name=..., icon_url=...)] *)
Definition set_author (n icon : string) (e : Embed) : Embed :=
  {| title := title e; description := description e; color := color e;
     fields := fields e; timestamp := timestamp e; thumbnail := thumbnail e;
     author := Some (n, icon); footer := footer e |}.

(** [embed.set_footer(text=...)] *)
Definition set_footer (t : string) (e : Embed) : Embed :=
  {| title := title e; description := description e; color := color e;
     fields := fields e; timestamp := timestamp e; thumbnail := thumbnail e;
     author := author e; footer := Some t |}.

(** ** Channels, permission subjects and overwrites *)

(** A permission subject: a role or a member, equal when class and id are. *)
Inductive Subject :=
| Role (id : Z)
| Member (id : Z).

#[export] Instance Subject_eq_dec : EqDecision Subject.
Proof. solve_decision. Defined.

#[export] Instance Subject_countable : Countable Subject.
Proof.
  refine (inj_countable'
            (fun s => match s with Role i => inl i | Member i => inr i end)
            (fun x => match x with inl i => Role i | inr i => Member i end) _).
  intros []; reflexivity.
Defined.

(** A [PermissionOverwrite]: the permissions set to [True] or [False];
    a permission without an entry is unset ([None]). *)
Abbreviation PermissionOverwrite := (gmap string bool).

Inductive ChannelClass := TextChannel | VoiceChannel | CategoryChannel | StoreChannel.

#[export] Instance ChannelClass_eq_dec : EqDecision ChannelClass.
Proof. solve_decision. Defined.

Definition class_name (cls : ChannelClass) : string :=
  match cls with
  | TextChannel => "TextChannel"
  | VoiceChannel => "VoiceChannel"
  | CategoryChannel => "CategoryChannel"
  | StoreChannel => "StoreChannel"
  end.

(** A snapshot of a guild channel.  It carries every attribute the cog
    reads; the cog reads only those of the snapshot's class.  [self] stands
    for the Python object (two snapshots are one object when their [self]
    are equal) and [repr] for its [repr()]. *)
Record GuildChannel := {
  class : ChannelClass;
  self : Z;
  repr : string;
  mention : string;
  name : string;
  topic : option string;
  nsfw : bool;
  slowmode_delay : Z;
  bitrate : Z;
  user_limit : Z;
  category : option (Z * string);
  overwrites : gmap Subject PermissionOverwrite
}.

(** What the cogs use of code that is not theirs: discord.py's table of
    permission names in the order a [PermissionOverwrite] iterates them,
    the [mention] of a role or member, [bot.utils.time.stringify_duration],
    [traceback.format_exc], and [bot.config]'s [devs] and [creator]. *)
Class Platform := {
  PURE_FLAGS : list string;
  subject_mention : Subject -> string;
  stringify_duration : Z -> string;
  format_exc : exn -> string;
  devs : list Z;
  creator : string
}.

(** ** Guilds, the bot and the effects of a coroutine *)

Record Guild := {
  guild_id : Z;
  channels : gmap Z GuildChannel
}.

(** [guild.get_channel(channel_id)]: a lookup in the guild's channels, whose
    keys are integers; a key of another type finds nothing.  The channel
    found is returned with its id. *)
Definition get_channel (guild : Guild) (channel_id : value) : option (Z * GuildChannel) :=
  match channel_id with
  | VInt i => pair i <$> channels guild !! i
  | VBool b => let i := if b then 1 else 0 in pair i <$> channels guild !! i
  | _ => None
  end.

(** [int(x)] for what a store can hand back: an integer is itself, a string
    of decimal digits (with an optional minus sign) is parsed, [None] is a
    [TypeError]. *)
Definition py_int (x : value) : result Z :=
  match x with
  | VInt i => Ok i
  | VBool b => Ok (if b then 1 else 0)
  | VStr s => match NilZero.int_of_string s with
              | Some d => Ok (Z.of_int d)
              | None => Raise ValueError
              end
  | _ => Raise TypeError
  end.

(** The bot: [log_channels log_type guild_id] is what
    [LogChannels.get_log_channel(bot.db_engine, log_type, guild)] returns;
    [extension_list] is [bot.extension_list]; [import_extension name] is
    what finding, importing and setting up the module [name] raises, [None]
    when the module loads; the rest is what [sudo stats] prints. *)
Record Bot := {
  log_channels : string -> Z -> value;
  extension_list : list string;
  import_extension : string -> option exn;
  guilds : nat;
  commands : nat;
  members : nat;
  started : string;
  python_version : string;
  python_implementation : string;
  discord_version : string;
  user_name : string;
  user_avatar_url : string
}.

Inductive Message :=
| Content (text : string)
| Rich (embed : Embed).

(** What a coroutine does to the outside. *)
Inductive Event :=
| Sent (channel : Z) (message : Message)
| Reacted (message : Z) (emoji : string)
| Closed
| Slept (seconds : Z)
| System (command : string).

(** The world a coroutine runs in: the extensions loaded and the trace of
    what has been done. *)
Record World := {
  loaded : list string;
  trace : list Event
}.

(** A coroutine: it runs in a world, changes it, and returns or raises. *)
Definition IO (A : Type) : Type := World -> result A * World.

#[export] Instance IO_ret : MRet IO := fun _ a w => (Ok a, w).
#[export] Instance IO_bind : MBind IO := fun _ _ f m w =>
  match m w with
  | (Ok a, w') => f a w'
  | (Raise e, w') => (Raise e, w')
  end.

Definition lift {A} (r : result A) : IO A := fun w => (r, w).

(** The truth value of an object that is [None] or not. *)
Definition truthy {A} (x : option A) : bool :=
  match x with Some _ => true | None => false end.

Definition emit (e : Event) : IO unit :=
  fun w => (Ok tt, {| loaded := loaded w; trace := trace w ++ [e] |}).

(** [await channel.send(...)] on a channel of the guild.  Only a text channel
    has [send]: on a channel of another class the attribute lookup raises.
    What is sent is taken to be delivered: an error of the transport is not
    part of the model. *)
Definition send (channel : Z * GuildChannel) (message : Message) : IO unit :=
  match class channel.2 with
  | TextChannel => emit (Sent channel.1 message)
  | _ => lift (Raise AttributeError)
  end.

(** [await bot.close()]: discord.py unloads every extension before it closes
    the connection. *)
Definition close : IO unit :=
  fun w => (Ok tt, {| loaded := []; trace := trace w ++ [Closed] |}).

(** ** [bot/cogs/logging/server_log.py]: the channel-update formatter *)

Module ServerLog.
Section Formatter.
Context `{Platform}.

(** [getattr(channel, parameter_name)] *)
Definition getattr (channel : GuildChannel) (parameter_name : string) : result value :=
  if String.eqb parameter_name "name" then Ok (VStr (name channel))
  else if String.eqb parameter_name "topic" then
    Ok (match topic channel with Some s => VStr s | None => VNone end)
  else if String.eqb parameter_name "is_nsfw" then
    Ok (VMethod (class_name (class channel) +:+ ".is_nsfw")
          (self channel) (repr channel) (nsfw channel))
  else if String.eqb parameter_name "slowmode_delay" then Ok (VInt (slowmode_delay channel))
  else if String.eqb parameter_name "bitrate" then Ok (VInt (bitrate channel))
  else if String.eqb parameter_name "user_limit" then Ok (VInt (user_limit channel))
  else if String.eqb parameter_name "category" then
    Ok (match category channel with Some (i, n) => VChannel i n | None => VNone end)
  else Raise AttributeError.

(** [channel.overwrites_for(obj)]: the subject's overwrite, an empty one
    when the channel has none for it. *)
Definition overwrites_for (channel : GuildChannel) (obj : Subject) : PermissionOverwrite :=
  default ∅ (overwrites channel !! obj).

(** Iterating a [PermissionOverwrite] yields one [(name, value)] pair per
    permission, in the order of [PURE_FLAGS]. *)
Definition iter_overwrite (ow : PermissionOverwrite) : list (string * option bool) :=
  map (fun key => (key, ow !! key)) PURE_FLAGS.

(** A value of [check_params]: a readable name, or a tuple of a callable
    and a readable name. *)
Inductive CheckParam :=
| Label (label : string)
| Transformed (func : value -> result value) (label : string).

(** [lambda time: stringify_duration(time) if time != 0 else None] *)
Definition slowmode_readable (time : value) : result value :=
  match time with
  | VInt t => if Z.eqb t 0 then Ok VNone else Ok (VStr (stringify_duration t))
  | _ => Raise TypeError
  end.

(** [lambda is_nsfw_func: is_nsfw_func()] *)
Definition call_is_nsfw (is_nsfw_func : value) : result value :=
  match is_nsfw_func with
  | VMethod _ _ _ r => Ok (VBool r)
  | _ => Raise TypeError
  end.

(** [lambda bps: f"{round(bps/1000)}kbps"] *)
Definition readable_bitrate (bps : value) : result value :=
  match bps with
  | VInt b => Ok (VStr (pretty (py_round_div b 1000) +:+ "kbps"))
  | _ => Raise TypeError
  end.

Definition text_check_params : list (string * CheckParam) :=
  [ ("name", Label "Name");
    ("topic", Label "Topic");
    ("is_nsfw", Transformed call_is_nsfw "NSFW");
    ("slowmode_delay", Transformed slowmode_readable "Slowmode delay");
    ("category", Label "Category") ].

Definition voice_check_params : list (string * CheckParam) :=
  [ ("name", Label "Name");
    ("bitrate", Transformed readable_bitrate "Bitrate");
    ("user_limit", Label "User limit");
    ("category", Label "Category") ].

Definition category_check_params : list (string * CheckParam) :=
  [ ("name", Label "Name");
    ("is_nsfw", Label "NSFW") ].

(** One turn of the loop over [check_params]: the two values as they are
    compared and printed, and the readable name. *)
Definition read_param (channel_before channel_after : GuildChannel)
    (param : string * CheckParam) : result (value * value * string) :=
  let '(parameter_name, value) := param in
  before_param ← getattr channel_before parameter_name;
  after_param ← getattr channel_after parameter_name;
  match value with
  | Transformed func label =>
      before_param ← func before_param;
      after_param ← func after_param;
      Ok (before_param, after_param, label)
  | Label label => Ok (before_param, after_param, label)
  end.

(** [f"**{value}:** {param}"] *)
Definition field_line (label : string) (param : value) : string :=
  "**" +:+ label +:+ ":** " +:+ py_str param.

(** The loop of [_specific_channel_update_embed], threading
    [field_before_text] and [field_after_text]. *)
Fixpoint diff_loop (channel_before channel_after : GuildChannel)
    (check_params : list (string * CheckParam))
    (field_before_text field_after_text : list string)
    : result (list string * list string) :=
  match check_params with
  | [] => Ok (field_before_text, field_after_text)
  | param :: rest =>
      '(before_param, after_param, label) ← read_param channel_before channel_after param;
      if py_ne before_param after_param
      then diff_loop channel_before channel_after rest
             (field_before_text ++ [field_line label before_param])
             (field_after_text ++ [field_line label after_param])
      else diff_loop channel_before channel_after rest field_before_text field_after_text
  end.

Definition _specific_channel_update_embed (channel_before channel_after : GuildChannel)
    (title : string) (check_params : list (string * CheckParam)) : result (option Embed) :=
  let embed := mk_embed title ("**Channel:** " +:+ mention channel_after) dark_blue in
  '(field_before_text, field_after_text) ←
    diff_loop channel_before channel_after check_params [] [];
  if Nat.eqb (length field_after_text) 0 then Ok None
  else
    let embed := add_field "Before" (String.concat LF field_before_text) true embed in
    let embed := add_field "After" (String.concat LF field_after_text) true embed in
    Ok (Some embed).

(** The symbol of a tri-state permission. *)
Definition emoji (perm : option bool) : string :=
  match perm with
  | Some true => "✅"
  | Some false => "❌"
  | None => "⬜"
  end.

(** The body of the loop over [zip(before_overwrites, after_overwrites)]. *)
Definition perm_line (perms : (string * option bool) * (string * option bool)) : list string :=
  let '(before_perm, after_perm) := perms in
  if bool_decide (before_perm.2 ≠ after_perm.2) then
    let perm_name := capitalize (replace_underscores before_perm.1) in
    ["**`" +:+ perm_name +:+ ":`** " +:+ emoji before_perm.2 +:+ " ➜ " +:+ emoji after_perm.2]
  else [].

(** The body of the loop over [all_overwrites]: the lines one subject adds
    to [embed_lines]. *)
Definition subject_lines (channel_before channel_after : GuildChannel)
    (overwrite_for : Subject) : list string :=
  let before_overwrites := overwrites_for channel_before overwrite_for in
  let after_overwrites := overwrites_for channel_after overwrite_for in
  if bool_decide (before_overwrites = after_overwrites) then []
  else
    ("**Overwrite changes for " +:+ subject_mention overwrite_for +:+ ":**")
    :: flat_map perm_line (zip (iter_overwrite before_overwrites) (iter_overwrite after_overwrites)).

(** [embed_lines] when the loop over [all_overwrites] is done.  Python
    iterates the set in an order of its own; [elements] fixes one. *)
Definition embed_lines (channel_before channel_after : GuildChannel) : list string :=
  let all_overwrites : gset Subject :=
    dom (overwrites channel_before) ∪ dom (overwrites channel_after) in
  flat_map (subject_lines channel_before channel_after) (elements all_overwrites).

(** The [if]/[elif] chain that binds [channel_type]; no branch for any
    other class, which leaves the local unbound. *)
Definition channel_type (channel_before : GuildChannel) : option string :=
  match class channel_before with
  | TextChannel => Some "Text channel"
  | VoiceChannel => Some "Voice channel"
  | CategoryChannel => Some "Category channel"
  | StoreChannel => None
  end.

Definition _channel_permissions_diff_embed (channel_before channel_after : GuildChannel)
    : result (option Embed) :=
  let channel_type := channel_type channel_before in
  let embed_lines := embed_lines channel_before channel_after in
  if Nat.eqb (length embed_lines) 0 then Ok None
  else
    let embed_text := mention channel_after +:+ " permissions have been updated." +:+ LF +:+ LF in
    let embed_text := embed_text +:+ String.concat LF embed_lines in
    match channel_type with
    | None => Raise UnboundLocalError
    | Some channel_type =>
        Ok (Some (mk_embed (channel_type +:+ " permissions updated") embed_text dark_blue))
    end.

Definition isinstance (channel : GuildChannel) (cls : ChannelClass) : bool :=
  bool_decide (class channel = cls).

Definition is_None {A} (x : option A) : bool :=
  match x with None => true | Some _ => false end.

(** [now] is what [datetime.datetime.now()] returns. *)
Definition make_channel_update_embed (now : Z) (channel_before channel_after : GuildChannel)
    : result (option Embed) :=
  embed ← (if bool_decide (overwrites channel_before ≠ overwrites channel_after)
            then _channel_permissions_diff_embed channel_before channel_after
            else Ok None);
  embed ← (if isinstance channel_before TextChannel && is_None embed
            then _specific_channel_update_embed channel_before channel_after
                   "Text Channel updated" text_check_params
            else Ok embed);
  embed ← (if isinstance channel_before VoiceChannel && is_None embed
            then _specific_channel_update_embed channel_before channel_after
                   "Voice Channel updated" voice_check_params
            else Ok embed);
  embed ← (if isinstance channel_before CategoryChannel && is_None embed
            then _specific_channel_update_embed channel_before channel_after
                   "Category Channel updated" category_check_params
            else Ok embed);
  match embed with
  | Some embed => Ok (Some (set_timestamp now embed))
  | None => Ok None
  end.

(** [ServerLog.send_log] *)
Definition send_log (bot : Bot) (guild : Guild) (message : Message) : IO bool :=
  let server_log_id := log_channels bot "server_log" (guild_id guild) in
  channel_id ← lift (py_int server_log_id);
  let server_log_channel := get_channel guild (VInt channel_id) in
  match server_log_channel with
  | None => mret false
  | Some server_log_channel =>
      _ ← send server_log_channel message;
      mret true
  end.

(** [ServerLog.on_guild_channel_update]; [guild] is [channel_after.guild]. *)
Definition on_guild_channel_update (bot : Bot) (now : Z) (guild : Guild)
    (channel_before channel_after : GuildChannel) : IO unit :=
  embed ← lift (make_channel_update_embed now channel_before channel_after);
  match embed with
  | None => mret tt
  | Some embed =>
      _ ← send_log bot guild (Rich embed);
      mret tt
  end.

End Formatter.
End ServerLog.

(** ** [bot/cogs/logging/voice_log.py] *)

Module VoiceLog.

Record VoiceState := {
  afk : bool;
  channel : option (Z * string);
  deaf : bool;
  mute : bool
}.

Record GuildMember := {
  member_mention : string;
  avatar_url : string;
  guild : Guild
}.

(** [state.channel] as a value: [None] or the voice channel. *)
Definition channel_value (state : VoiceState) : value :=
  match channel state with
  | Some (i, n) => VChannel i n
  | None => VNone
  end.

(** [MessageLog.send_log] *)
Definition send_log (bot : Bot) (guild : Guild) (message : Message) : IO bool :=
  let mod_log_id := log_channels bot "voice_log" (guild_id guild) in
  let mod_log_channel := get_channel guild mod_log_id in
  match mod_log_channel with
  | None => mret false
  | Some mod_log_channel =>
      _ ← send mod_log_channel message;
      mret true
  end.

(** The embed [on_voice_state_update] builds, [None] where it returns
    early.  In the second branch the conditional expression spans the whole
    concatenated f-string. *)
Definition voice_state_embed (member : GuildMember) (before after : VoiceState) : option Embed :=
  if negb (Bool.eqb (afk before) (afk after)) then
    Some (mk_embed (if afk after then "User went AFK" else "User is no longer AFK")
            ("**User:** " +:+ member_mention member) blue)
  else if py_ne (channel_value before) (channel_value after) then
    Some (mk_embed (if truthy (channel after) then "User changed channels"
                    else "User left voice channel")
            (if truthy (channel after)
             then "**User:** " +:+ member_mention member
                  +:+ LF +:+ "**Channel:** " +:+ py_str (channel_value before)
                  +:+ LF +:+ "**New Channel:** " +:+ py_str (channel_value after)
             else "")
            blue)
  else if negb (Bool.eqb (deaf before) (deaf after)) then
    Some (mk_embed (if deaf after then "User deafened" else "User undeafened")
            ("**User:** " +:+ member_mention member) dark_orange)
  else if negb (Bool.eqb (mute before) (mute after)) then
    Some (mk_embed (if mute after then "User silenced" else "User unsilenced")
            ("**User:** " +:+ member_mention member) dark_orange)
  else None.

(** [MessageLog.on_voice_state_update] *)
Definition on_voice_state_update (bot : Bot) (member : GuildMember)
    (before after : VoiceState) : IO unit :=
  match voice_state_embed member before after with
  | None => mret tt
  | Some embed =>
      let embed := set_thumbnail (avatar_url member) embed in
      _ ← send_log bot (guild member) (Rich embed);
      mret tt
  end.

End VoiceLog.

(** ** [bot/cogs/sudo.py] *)

Module Sudo.
Section Cog.
Context `{Platform}.

(** The invocation context: who wrote the message, the message, and the
    channel it was written in. *)
Record Context := {
  author_id : Z;
  message_id : Z;
  channel_id : Z
}.

(** [ctx.author.id in config.devs] *)
Definition is_dev (ctx : Context) : bool := bool_decide (author_id ctx ∈ devs).

(** [await ctx.message.add_reaction(emoji)] *)
Definition add_reaction (ctx : Context) (emoji : string) : IO unit :=
  emit (Reacted (message_id ctx) emoji).

(** [await ctx.send(...)]: a message to the channel the command was written
    in, taken to be delivered. *)
Definition ctx_send (ctx : Context) (message : Message) : IO unit :=
  emit (Sent (channel_id ctx) message).

(** [bot.load_extension(name)]: a name that is loaded already is refused;
    otherwise the module is found, imported and set up, and whatever that
    raises is raised. *)
Definition load_extension (bot : Bot) (ext : string) : IO unit :=
  fun w =>
    if bool_decide (ext ∈ loaded w) then (Raise ExtensionAlreadyLoaded, w)
    else match import_extension bot ext with
         | None => (Ok tt, {| loaded := loaded w ++ [ext]; trace := trace w |})
         | Some e => (Raise e, w)
         end.

(** [bot.unload_extension(name)] *)
Definition unload_extension (bot : Bot) (ext : string) : IO unit :=
  fun w =>
    if bool_decide (ext ∈ loaded w)
    then (Ok tt, {| loaded := filter (fun e => e ≠ ext) (loaded w); trace := trace w |})
    else (Raise ExtensionNotLoaded, w).

(** The exceptions that derive from [DiscordException]. *)
Definition is_DiscordException (e : exn) : bool :=
  match e with
  | ExtensionNotFound | ExtensionAlreadyLoaded | ExtensionNotLoaded
  | ExtensionFailed | NoEntryPointError | CheckFailure => true
  | _ => false
  end.

(** [try: body / except DiscordException: handler / else: orelse] *)
Definition try_except_else (body : IO unit) (handler : exn -> IO unit)
    (orelse : IO unit) : IO unit :=
  fun w =>
    match body w with
    | (Ok _, w') => orelse w'
    | (Raise e, w') => if is_DiscordException e then handler e w' else (Raise e, w')
    end.

(** [for ext in extension: ...] *)
Fixpoint for_each (extension : list string) (body : string -> IO unit) : IO unit :=
  match extension with
  | [] => mret tt
  | ext :: rest => _ ← body ext; for_each rest body
  end.

(** The argument of [load], [reload] and [unload] as the list the command
    loops over: every extension when none (or an empty name) is given. *)
Definition extensions_of (bot : Bot) (extension : option string) : list string :=
  match extension with
  | None | Some "" => extension_list bot
  | Some ext => ["bot.cogs." +:+ ext]
  end.

Definition traceback_message (e : exn) : Message :=
  Content ("```py" +:+ LF +:+ format_exc e +:+ LF +:+ "```").

Definition SQUARED_OK : string := "🆗".

Definition shutdown (bot : Bot) (ctx : Context) : IO unit :=
  if is_dev ctx then
    _ ← add_reaction ctx "✅";
    close
  else mret tt.

Definition restart (bot : Bot) (ctx : Context) : IO unit :=
  if is_dev ctx then
    _ ← add_reaction ctx "✅";
    _ ← close;
    _ ← emit (Slept 1);
    emit (System "pipenv run start")
  else mret tt.

Definition load (bot : Bot) (ctx : Context) (extension : option string) : IO unit :=
  for_each (extensions_of bot extension) (fun ext =>
    try_except_else (load_extension bot ext)
      (fun e => ctx_send ctx (traceback_message e))
      (ctx_send ctx (Content SQUARED_OK))).

Definition reload (bot : Bot) (ctx : Context) (extension : option string) : IO unit :=
  for_each (extensions_of bot extension) (fun ext =>
    try_except_else (_ ← unload_extension bot ext; load_extension bot ext)
      (fun e => ctx_send ctx (traceback_message e))
      (ctx_send ctx (Content SQUARED_OK))).

Definition unload (bot : Bot) (ctx : Context) (extension : option string) : IO unit :=
  for_each (extensions_of bot extension) (fun ext =>
    try_except_else (unload_extension bot ext)
      (fun e => ctx_send ctx (traceback_message e))
      (ctx_send ctx (Content SQUARED_OK))).

Definition stats (bot : Bot) (ctx : Context) : IO unit :=
  let general :=
    LF +:+ "• Servers: **`" +:+ pretty (guilds bot) +:+ "`**"
    +:+ LF +:+ "• Commands: **`" +:+ pretty (commands bot) +:+ "`**"
    +:+ LF +:+ "• Members: **`" +:+ pretty (members bot) +:+ "`**"
    +:+ LF +:+ "• Started: **" +:+ started bot +:+ "**" +:+ LF in
  let system :=
    LF +:+ "• Python: **`" +:+ python_version bot +:+ " with "
    +:+ python_implementation bot +:+ "`**"
    +:+ LF +:+ "• discord.py: **`" +:+ discord_version bot +:+ "`**" +:+ LF in
  let embed :=
    {| title := "BOT STATISTICS"; description := ""; color := Some blue; fields := [];
       timestamp := None; thumbnail := None; author := None; footer := None |} in
  let embed := add_field "**❯❯ General**" general true embed in
  let embed := add_field "**❯❯ System**" system true embed in
  let embed := set_author (user_name bot +:+ "'s Stats") (user_avatar_url bot) embed in
  let embed := set_footer ("Made by " +:+ creator +:+ " Team.") embed in
  ctx_send ctx (Rich embed).

(** [Embed(description=..., color=Color.red())] of [cog_check] *)
Definition owner_only_embed : Embed :=
  {| title := ""; description := "This is an Owner-only command, you cannot invoke this.";
     color := Some red; fields := []; timestamp := None; thumbnail := None;
     author := None; footer := None |}.

(** [Sudo.cog_check]: [True] for a dev; otherwise the notice is sent and
    the coroutine falls off its end, returning [None] (here [false]). *)
Definition cog_check (ctx : Context) : IO bool :=
  if is_dev ctx then mret true
  else
    _ ← ctx_send ctx (Rich owner_only_embed);
    mret false.

(** The commands of the [sudo] group. *)
Inductive Command :=
| Shutdown
| Restart
| Load (extension : option string)
| Reload (extension : option string)
| Unload (extension : option string)
| Stats.

(** The callback of a command. *)
Definition callback (bot : Bot) (ctx : Context) (command : Command) : IO unit :=
  match command with
  | Shutdown => shutdown bot ctx
  | Restart => restart bot ctx
  | Load extension => load bot ctx extension
  | Reload extension => reload bot ctx extension
  | Unload extension => unload bot ctx extension
  | Stats => stats bot ctx
  end.

(** How discord.py runs a callback of the cog: [cog_check] first, and
    [CheckFailure] in place of the callback when it returns a false value. *)
Definition checked (ctx : Context) (body : IO unit) : IO unit :=
  ok ← cog_check ctx;
  if ok : bool then body else lift (Raise CheckFailure).

(** Invoking [sudo <command>]: the group's callback (which passes) and
    then the command's, each behind the cog's check. *)
Definition invoke (bot : Bot) (ctx : Context) (command : Command) : IO unit :=
  _ ← checked ctx (mret tt);
  checked ctx (callback bot ctx command).

End Cog.
End Sudo.

(** ** Vocabulary of the properties *)

Section Vocabulary.
Context `{Platform}.
Import ServerLog.

(** The readable name of a [check_params] entry. *)
Definition label_of (param : string * CheckParam) : string :=
  match param.2 with
  | Label label => label
  | Transformed _ label => label
  end.

(** The [check_params] of a channel class, with the embed's title. *)
Definition declared (cls : ChannelClass) : option (string * list (string * CheckParam)) :=
  match cls with
  | TextChannel => Some ("Text Channel updated", text_check_params)
  | VoiceChannel => Some ("Voice Channel updated", voice_check_params)
  | CategoryChannel => Some ("Category Channel updated", category_check_params)
  | StoreChannel => None
  end.

Definition declared_params (cls : ChannelClass) : list (string * CheckParam) :=
  match declared cls with
  | Some (_, params) => params
  | None => []
  end.

(** The field diff of [make_channel_update_embed]: what its three
    [isinstance] blocks compute when the permission diff gave no embed. *)
Definition field_diff (now : Z) (channel_before channel_after : GuildChannel)
    : result (option Embed) :=
  match declared (class channel_before) with
  | None => Ok None
  | Some (title, params) =>
      match _specific_channel_update_embed channel_before channel_after title params with
      | Raise e => Raise e
      | Ok (Some embed) => Ok (Some (set_timestamp now embed))
      | Ok None => Ok None
      end
  end.

(** Whether the loop finds the two snapshots to differ in a field. *)
Definition field_differs (channel_before channel_after : GuildChannel)
    (param : string * CheckParam) : bool :=
  match read_param channel_before channel_after param with
  | Ok (before_param, after_param, _) => py_ne before_param after_param
  | Raise _ => false
  end.

(** The fields the loop finds changed, in the order the class declares them. *)
Definition changed_fields (channel_before channel_after : GuildChannel)
    : list (string * CheckParam) :=
  List.filter (field_differs channel_before channel_after)
    (declared_params (class channel_before)).

(** The line a field adds to the Before column, and to the After column. *)
Definition before_line (channel_before channel_after : GuildChannel)
    (param : string * CheckParam) : string :=
  match read_param channel_before channel_after param with
  | Ok (before_param, _, label) => field_line label before_param
  | Raise _ => ""
  end.

Definition after_line (channel_before channel_after : GuildChannel)
    (param : string * CheckParam) : string :=
  match read_param channel_before channel_after param with
  | Ok (_, after_param, label) => field_line label after_param
  | Raise _ => ""
  end.

(** The header line of a subject, and the line of a permission that went
    from [x] to [y]. *)
Definition subject_header (overwrite_for : Subject) : string :=
  "**Overwrite changes for " +:+ subject_mention overwrite_for +:+ ":**".

Definition permission_line (key : string) (x y : option bool) : string :=
  "**`" +:+ capitalize (replace_underscores key) +:+ ":`** "
  +:+ emoji x +:+ " ➜ " +:+ emoji y.

End Vocabulary.

Section SudoVocabulary.
Context `{Platform}.
Import Sudo.


End SudoVocabulary.

(** ** Sample data

    A platform, channels, a guild and bots on which the cogs are evaluated. *)

Definition discord_flags : list string :=
  [ "create_instant_invite"; "kick_members"; "ban_members"; "administrator";
    "manage_channels"; "manage_guild"; "add_reactions"; "view_audit_log";
    "priority_speaker"; "stream"; "read_messages"; "send_messages";
    "send_tts_messages"; "manage_messages"; "embed_links"; "attach_files";
    "read_message_history"; "mention_everyone"; "external_emojis";
    "view_guild_insights"; "connect"; "speak"; "mute_members"; "deafen_members";
    "move_members"; "use_voice_activation"; "change_nickname";
    "manage_nicknames"; "manage_roles"; "manage_webhooks"; "manage_emojis" ].

Definition sample_platform : Platform := {|
  PURE_FLAGS := discord_flags;
  subject_mention := fun s => match s with
                             | Role i => "<@&" +:+ pretty i +:+ ">"
                             | Member i => "<@" +:+ pretty i +:+ ">"
                             end;
  stringify_duration := fun t => pretty t +:+ " seconds";
  format_exc := fun _ => "Traceback (most recent call last)";
  devs := [306876636526280705; 414097550083096576];
  creator := "The Codin' Hole"
|}.

(** A text channel in which role 7 may not send messages. *)
Definition general : GuildChannel := {|
  class := TextChannel; self := 1; repr := "<TextChannel id=42 name='general'>";
  mention := "<#42>"; name := "general"; topic := Some "talk"; nsfw := false;
  slowmode_delay := 0; bitrate := 0; user_limit := 0; category := None;
  overwrites := {[ Role 7 := {[ "send_messages" := false ]} ]}
|}.

(** [general] after role 7 was allowed to send messages. *)
Definition general_unmuted : GuildChannel := {|
  class := TextChannel; self := 2; repr := "<TextChannel id=42 name='general'>";
  mention := "<#42>"; name := "general"; topic := Some "talk"; nsfw := false;
  slowmode_delay := 0; bitrate := 0; user_limit := 0; category := None;
  overwrites := {[ Role 7 := {[ "send_messages" := true ]} ]}
|}.

(** A second snapshot of [general], nothing changed. *)
Definition general_again : GuildChannel := {|
  class := TextChannel; self := 2; repr := "<TextChannel id=42 name='general'>";
  mention := "<#42>"; name := "general"; topic := Some "talk"; nsfw := false;
  slowmode_delay := 0; bitrate := 0; user_limit := 0; category := None;
  overwrites := {[ Role 7 := {[ "send_messages" := false ]} ]}
|}.

(** [general] after its topic was changed. *)
Definition general_retopic : GuildChannel := {|
  class := TextChannel; self := 2; repr := "<TextChannel id=42 name='general'>";
  mention := "<#42>"; name := "general"; topic := Some "chat"; nsfw := false;
  slowmode_delay := 0; bitrate := 0; user_limit := 0; category := None;
  overwrites := {[ Role 7 := {[ "send_messages" := false ]} ]}
|}.

(** [general] after it was renamed and member 9 got an empty overwrite. *)
Definition lounge : GuildChannel := {|
  class := TextChannel; self := 2; repr := "<TextChannel id=42 name='lounge'>";
  mention := "<#42>"; name := "lounge"; topic := Some "talk"; nsfw := false;
  slowmode_delay := 0; bitrate := 0; user_limit := 0; category := None;
  overwrites := {[ Role 7 := {[ "send_messages" := false ]}; Member 9 := ∅ ]}
|}.

(** Two snapshots of a category, nothing changed between them. *)
Definition archive : GuildChannel := {|
  class := CategoryChannel; self := 5; repr := "<CategoryChannel id=44 name='archive' position=0 nsfw=False>";
  mention := "<#44>"; name := "archive"; topic := None; nsfw := false;
  slowmode_delay := 0; bitrate := 0; user_limit := 0; category := None;
  overwrites := ∅
|}.

Definition archive_again : GuildChannel := {|
  class := CategoryChannel; self := 6; repr := "<CategoryChannel id=44 name='archive' position=0 nsfw=False>";
  mention := "<#44>"; name := "archive"; topic := None; nsfw := false;
  slowmode_delay := 0; bitrate := 0; user_limit := 0; category := None;
  overwrites := ∅
|}.

(** [general] after member 9 was denied sending messages. *)
Definition general_member_muted : GuildChannel := {|
  class := TextChannel; self := 2; repr := "<TextChannel id=42 name='general'>";
  mention := "<#42>"; name := "general"; topic := Some "talk"; nsfw := false;
  slowmode_delay := 0; bitrate := 0; user_limit := 0; category := None;
  overwrites := {[ Role 7 := {[ "send_messages" := false ]};
                   Member 9 := {[ "send_messages" := false ]} ]}
|}.

(** [general] with a slowmode of 90 seconds, before the slowmode was lifted. *)
Definition general_slow : GuildChannel := {|
  class := TextChannel; self := 1; repr := "<TextChannel id=42 name='general'>";
  mention := "<#42>"; name := "general"; topic := Some "talk"; nsfw := false;
  slowmode_delay := 90; bitrate := 0; user_limit := 0; category := None;
  overwrites := {[ Role 7 := {[ "send_messages" := false ]} ]}
|}.

(** A store channel in which role 7 may not send messages, and the same
    channel after the role was allowed to. *)
Definition store : GuildChannel := {|
  class := StoreChannel; self := 3; repr := "<StoreChannel id=43 name='shop'>";
  mention := "<#43>"; name := "shop"; topic := None; nsfw := false;
  slowmode_delay := 0; bitrate := 0; user_limit := 0; category := None;
  overwrites := {[ Role 7 := {[ "send_messages" := false ]} ]}
|}.

Definition store_unmuted : GuildChannel := {|
  class := StoreChannel; self := 4; repr := "<StoreChannel id=43 name='shop'>";
  mention := "<#43>"; name := "shop"; topic := None; nsfw := false;
  slowmode_delay := 0; bitrate := 0; user_limit := 0; category := None;
  overwrites := {[ Role 7 := {[ "send_messages" := true ]} ]}
|}.

Definition sample_guild : Guild := {|
  guild_id := 1000;
  channels := {[ 42 := general; 43 := store ]}
|}.

(** What importing a module gives: the three cogs load, a module that fails
    while it is imported is [ExtensionFailed], a dotted name under a package
    that does not exist is Python's [ModuleNotFoundError], and any other name
    is not found. *)
Definition sample_import (name : string) : option exn :=
  if bool_decide (name ∈ ["bot.cogs.sudo"; "bot.cogs.logging.server_log";
                          "bot.cogs.logging.voice_log"]) then None
  else if String.eqb name "bot.cogs.fun" then Some ExtensionFailed
  else if String.eqb name "bot.cogs.nope.deep" then Some ModuleNotFoundError
  else Some ExtensionNotFound.

(** A bot whose store answers every lookup with [answer]. *)
Definition bot_with (answer : value) : Bot := {|
  log_channels := fun _ _ => answer;
  extension_list := ["bot.cogs.sudo"; "bot.cogs.logging.server_log"];
  import_extension := sample_import;
  guilds := 1; commands := 7; members := 12; started := "2 hours";
  python_version := "3.8.5"; python_implementation := "CPython";
  discord_version := "1.5.1"; user_name := "Electron";
  user_avatar_url := "https://cdn.discordapp.com/avatars/1.png"
|}.

(** A member in the voice channel General, and after leaving voice. *)
Definition alice : VoiceLog.GuildMember := {|
  VoiceLog.member_mention := "<@9>";
  VoiceLog.avatar_url := "https://cdn.discordapp.com/avatars/9.png";
  VoiceLog.guild := sample_guild
|}.

Definition in_voice : VoiceLog.VoiceState := {|
  VoiceLog.afk := false; VoiceLog.channel := Some (50, "General");
  VoiceLog.deaf := false; VoiceLog.mute := false
|}.

Definition out_of_voice : VoiceLog.VoiceState := {|
  VoiceLog.afk := false; VoiceLog.channel := None;
  VoiceLog.deaf := false; VoiceLog.mute := false
|}.

(** A member in the AFK channel. *)
Definition in_afk : VoiceLog.VoiceState := {|
  VoiceLog.afk := true; VoiceLog.channel := Some (51, "AFK");
  VoiceLog.deaf := false; VoiceLog.mute := false
|}.

(** [in_voice], with the member's own microphone state changed: nothing the
    listener tracks differs. *)
Definition in_voice_again : VoiceLog.VoiceState := {|
  VoiceLog.afk := false; VoiceLog.channel := Some (50, "General");
  VoiceLog.deaf := false; VoiceLog.mute := false
|}.

(** [in_voice] after a moderator deafened and muted the member. *)
Definition in_voice_silenced : VoiceLog.VoiceState := {|
  VoiceLog.afk := false; VoiceLog.channel := Some (50, "General");
  VoiceLog.deaf := true; VoiceLog.mute := true
|}.

(** A message written in channel 42 by user 5, who is no dev of
    [sample_platform], and one by a dev. *)
Definition stranger_ctx : Sudo.Context := {|
  Sudo.author_id := 5; Sudo.message_id := 900; Sudo.channel_id := 42
|}.

Definition dev_ctx : Sudo.Context := {|
  Sudo.author_id := 306876636526280705; Sudo.message_id := 901; Sudo.channel_id := 42
|}.

Definition empty_world : World := {| loaded := []; trace := [] |}.

(** A world in which the sudo cog is loaded. *)
Definition sudo_loaded : World := {| loaded := ["bot.cogs.sudo"]; trace := [] |}.

(** A world in which an extension is loaded whose module fails on import. *)
Definition fun_loaded : World := {| loaded := ["bot.cogs.fun"]; trace := [] |}.

(** The embed of renaming [general] to [lounge] at time 100. *)
Definition renamed_embed : Embed := {|
  title := "Text Channel updated";
  description := "**Channel:** <#42>";
  color := Some dark_blue;
  fields := [ {| field_name := "Before"; field_value := "**Name:** general"; inline := true |};
              {| field_name := "After"; field_value := "**Name:** lounge"; inline := true |} ];
  timestamp := Some 100;
  thumbnail := None; author := None; footer := None
|}.

Definition sample_embed : Embed := mk_embed "Text Channel updated" "**Channel:** <#42>" dark_blue.

(** ** Properties *)

(** *** Python values *)

Lemma py_ne_refl (v : value) : py_ne v v = false.
Proof.
  unfold py_ne.
  destruct v; simpl; rewrite ?Z.eqb_refl, ?String.eqb_refl; try reflexivity.
  destruct b; reflexivity.
Qed.

Lemma py_ne_VStr (s t : string) : s ≠ t -> py_ne (VStr s) (VStr t) = true.
Proof.
  intros Hne. unfold py_ne. simpl.
  destruct (String.eqb_spec s t); [contradiction | reflexivity].
Qed.

(** *** The loop over [check_params] *)

Section FormatterLemmas.
Context `{Platform}.
Import ServerLog.

Lemma read_param_label b a param vb va l :
  read_param b a param = Ok (vb, va, l) -> l = label_of param.
Proof.
  destruct param as [parameter_name [label | func label]]; unfold read_param, label_of; simpl.
  - destruct (getattr b parameter_name); simpl; [| discriminate].
    destruct (getattr a parameter_name); simpl; [| discriminate].
    intros [= _ _ <-]. reflexivity.
  - destruct (getattr b parameter_name) as [x |]; simpl; [| discriminate].
    destruct (getattr a parameter_name) as [y |]; simpl; [| discriminate].
    destruct (func x); simpl; [| discriminate].
    destruct (func y); simpl; [| discriminate].
    intros [= _ _ <-]. reflexivity.
Qed.

(** Reading a declared field of a snapshot never raises. *)
Lemma read_param_declared b a param :
  param ∈ declared_params (class b) ->
  exists vb va, read_param b a param = Ok (vb, va, label_of param).
Proof.
  unfold declared_params, declared.
  destruct (class b); intros Hin;
    repeat (apply elem_of_cons in Hin as [-> | Hin]);
    try (apply elem_of_nil in Hin; contradiction);
    unfold read_param; simpl; eauto.
  - unfold slowmode_readable.
    destruct (Z.eqb (slowmode_delay b) 0), (Z.eqb (slowmode_delay a) 0); simpl; eauto.
Qed.

(** A field the loop found changed: its readable name and the two values. *)
Lemma diff_loop_changes b a params : forall fb fa lb la,
  diff_loop b a params fb fa = Ok (lb, la) ->
  exists changed : list (string * value * value),
    lb = (fb ++ map (fun c => field_line c.1.1 c.1.2) changed)%list
    /\ la = (fa ++ map (fun c => field_line c.1.1 c.2) changed)%list
    /\ sublist (map (fun c => c.1.1) changed) (map label_of params)
    /\ Forall (fun c => py_ne c.1.2 c.2 = true) changed.
Proof.
  induction params as [| param rest IH]; intros fb fa lb la; simpl.
  - intros [= <- <-]. exists []. simpl. rewrite !app_nil_r.
    repeat split; constructor.
  - destruct (read_param b a param) as [[[vb va] l] |] eqn:Hread; simpl; [| discriminate].
    apply read_param_label in Hread as ->.
    destruct (py_ne vb va) eqn:Hne; intros Hloop.
    + apply IH in Hloop as (changed & -> & -> & Hsub & Hall).
      exists ((label_of param, vb, va) :: changed). simpl.
      rewrite <- !app_assoc. simpl.
      repeat split; [by apply sublist_skip | by constructor].
    + apply IH in Hloop as (changed & -> & -> & Hsub & Hall).
      exists changed. repeat split; [by apply sublist_cons | done].
Qed.

(** Where no field differs the loop leaves both columns as they were. *)
Lemma diff_loop_unchanged b a params : forall fb fa,
  (forall param, param ∈ params ->
     exists vb va l, read_param b a param = Ok (vb, va, l) /\ py_ne vb va = false) ->
  diff_loop b a params fb fa = Ok (fb, fa).
Proof.
  induction params as [| param rest IH]; intros fb fa Hsame; simpl; [reflexivity |].
  destruct (Hsame param) as (vb & va & l & -> & Hne); [left |].
  simpl. rewrite Hne. apply IH.
  intros p Hp. apply Hsame. by right.
Qed.

(** The result of [make_channel_update_embed], by cases on what the
    permission diff gives. *)
Lemma make_channel_update_embed_cases now b a :
  make_channel_update_embed now b a =
  match (if bool_decide (overwrites b ≠ overwrites a)
         then _channel_permissions_diff_embed b a else Ok None) with
  | Raise e => Raise e
  | Ok (Some embed) => Ok (Some (set_timestamp now embed))
  | Ok None =>
      match declared (class b) with
      | None => Ok None
      | Some (title, params) =>
          match _specific_channel_update_embed b a title params with
          | Raise e => Raise e
          | Ok (Some embed) => Ok (Some (set_timestamp now embed))
          | Ok None => Ok None
          end
      end
  end.
Proof.
  unfold make_channel_update_embed, isinstance, declared.
  destruct (if bool_decide (overwrites b ≠ overwrites a)
            then _channel_permissions_diff_embed b a else Ok None) as [[embed |] |];
    simpl.
  - destruct (class b); reflexivity.
  - destruct (class b); reflexivity.
  - reflexivity.
Qed.

End FormatterLemmas.

(** *** The permission diff *)

Lemma flat_map_single {A B} (f : A -> list B) (l : list A) (y : A) :
  NoDup l -> y ∈ l -> (forall x, x ∈ l -> x ≠ y -> f x = []) -> flat_map f l = f y.
Proof.
  induction 1 as [| x l Hx Hnd IH]; intros Hy Hf.
  - by apply elem_of_nil in Hy.
  - simpl. apply elem_of_cons in Hy as [<- | Hy].
    + assert (flat_map f l = []) as ->; [| by rewrite app_nil_r].
      clear IH. induction l as [| z l IHl]; [reflexivity |]. simpl.
      rewrite (Hf z); [| by right; left | by intros ->; apply Hx; left].
      apply IHl.
      * intros Hin. apply Hx. by right.
      * by apply NoDup_cons_1_2 in Hnd.
      * intros x Hin. apply Hf. apply elem_of_cons in Hin as [-> | Hin]; [by left |].
        by right; right.
    + rewrite (Hf x); [| by left | by intros ->]. simpl.
      apply IH; [done |]. intros z Hz. apply Hf. by right.
Qed.

Section PermissionDiffLemmas.
Context `{Platform}.
Import ServerLog.

(** The lines of one subject, permission by permission. *)
Lemma perm_lines_by_flag (before_ow after_ow : PermissionOverwrite) :
  flat_map perm_line (zip (iter_overwrite before_ow) (iter_overwrite after_ow)) =
  flat_map (fun key => perm_line ((key, before_ow !! key), (key, after_ow !! key))) PURE_FLAGS.
Proof.
  unfold iter_overwrite.
  induction PURE_FLAGS as [| key keys IH]; simpl; [reflexivity |].
  by rewrite IH.
Qed.

(** A subject whose overwrite is the same in both snapshots adds no line. *)
Lemma subject_lines_unchanged b a s :
  overwrites_for b s = overwrites_for a s -> subject_lines b a s = [].
Proof. intros Heq. unfold subject_lines. by rewrite bool_decide_eq_true_2. Qed.

(** Equal overwrite mappings: no subject adds a line. *)
Lemma embed_lines_same_overwrites b a :
  overwrites b = overwrites a -> embed_lines b a = [].
Proof.
  intros Heq. unfold embed_lines.
  induction (elements _) as [| s l IH]; simpl; [reflexivity |].
  rewrite subject_lines_unchanged, IH; [reflexivity |].
  unfold overwrites_for. by rewrite Heq.
Qed.

(** What [_channel_permissions_diff_embed] returns, by cases. *)
Lemma _channel_permissions_diff_embed_cases b a :
  _channel_permissions_diff_embed b a =
  match embed_lines b a, channel_type b with
  | [], _ => Ok None
  | _ :: _, None => Raise UnboundLocalError
  | lines, Some ty =>
      Ok (Some (mk_embed (ty +:+ " permissions updated")
                  ((mention a +:+ " permissions have been updated." +:+ LF +:+ LF)
                   +:+ String.concat LF lines) dark_blue))
  end.
Proof.
  unfold _channel_permissions_diff_embed.
  destruct (embed_lines b a), (channel_type b); reflexivity.
Qed.

End PermissionDiffLemmas.

(** *** The channel-update formatter *)

Section FormatterProperties.
Context `{Platform}.
Import ServerLog.

(** The loop over the declared fields of a snapshot's class never raises. *)
Lemma diff_loop_total b a params : forall fb fa,
  (forall param, param ∈ params -> exists vb va l, read_param b a param = Ok (vb, va, l)) ->
  exists lb la, diff_loop b a params fb fa = Ok (lb, la).
Proof.
  induction params as [| param rest IH]; intros fb fa Hread; simpl; [eauto |].
  destruct (Hread param) as (vb & va & l & ->); [left |]. simpl.
  destruct (py_ne vb va); apply IH; intros p Hp; apply Hread; by right.
Qed.

Lemma _specific_channel_update_embed_total b a title :
  exists r, _specific_channel_update_embed b a title (declared_params (class b)) = Ok r.
Proof.
  unfold _specific_channel_update_embed.
  destruct (diff_loop_total b a (declared_params (class b)) [] []) as (lb & la & ->).
  - intros param Hin. destruct (read_param_declared b a param Hin) as (vb & va & Hr). eauto.
  - simpl. destruct (Nat.eqb (length la) 0); eauto.
Qed.

(** The formatter returns for every pair of snapshots but those of a class
    without a [channel_type] whose permission diff has a line. *)
Lemma make_channel_update_embed_total now b a :
  channel_type b ≠ None \/ embed_lines b a = [] ->
  exists r, make_channel_update_embed now b a = Ok r.
Proof.
  intros Hcase. rewrite make_channel_update_embed_cases.
  assert (exists r, (if bool_decide (overwrites b ≠ overwrites a)
                     then _channel_permissions_diff_embed b a else Ok None) = Ok r)
    as [r ->].
  { destruct (bool_decide _); [| eauto].
    rewrite _channel_permissions_diff_embed_cases.
    destruct (embed_lines b a) as [| line lines]; [eauto |].
    destruct (channel_type b); [eauto |].
    destruct Hcase as [Hty | Hnil]; [contradiction | discriminate]. }
  destruct r as [embed |]; [eauto |].
  pose proof (_specific_channel_update_embed_total b a) as Htotal.
  unfold declared_params in Htotal.
  destruct (declared (class b)) as [[title params] |]; [| eauto].
  destruct (Htotal title) as [[embed |] ->]; eauto.
Qed.

(** A channel of another class than text, voice and category whose permission
    diff has no line yields nothing. *)
Lemma other_class_yields_nothing now b a :
  class b = StoreChannel -> embed_lines b a = [] ->
  make_channel_update_embed now b a = Ok None.
Proof.
  intros Hcls Hnil. rewrite make_channel_update_embed_cases.
  rewrite _channel_permissions_diff_embed_cases, Hnil, Hcls. simpl.
  by destruct (bool_decide _).
Qed.

(** C1 (amended): for every pair of text, voice or category channel snapshots
    whose permission-overwrite mappings differ and whose permission diff has
    at least one line, [make_channel_update_embed] returns the permission-diff
    embed, timestamped, and does no field diffing: the embed has no Before or
    After field.  When the permission diff has no line, the result is the
    field diff, as it is for equal mappings. *)
Theorem permission_diff_excludes_field_diff now b a :
  (forall ty,
     overwrites b ≠ overwrites a ->
     embed_lines b a ≠ [] ->
     channel_type b = Some ty ->
     make_channel_update_embed now b a =
       Ok (Some {| title := ty +:+ " permissions updated";
                   description := (mention a +:+ " permissions have been updated."
                                   +:+ LF +:+ LF)
                                  +:+ String.concat LF (embed_lines b a);
                   color := Some dark_blue; fields := []; timestamp := Some now;
                   thumbnail := None; author := None; footer := None |}))
  /\ (embed_lines b a = [] -> make_channel_update_embed now b a = field_diff now b a)
  /\ (overwrites b = overwrites a -> make_channel_update_embed now b a = field_diff now b a).
Proof.
  assert (embed_lines b a = [] -> make_channel_update_embed now b a = field_diff now b a)
    as Hnolines.
  { intros Hnil. rewrite make_channel_update_embed_cases.
    rewrite _channel_permissions_diff_embed_cases, Hnil.
    by destruct (bool_decide _). }
  split; [| split; [exact Hnolines |]].
  - intros ty Hdiff Hlines Hty. rewrite make_channel_update_embed_cases.
    rewrite bool_decide_eq_true_2 by done.
    rewrite _channel_permissions_diff_embed_cases, Hty.
    destruct (embed_lines b a); [contradiction | reflexivity].
  - intros Hsame. by apply Hnolines, embed_lines_same_overwrites.
Qed.

End FormatterProperties.

(** C1 (witness): role 7 is allowed to send messages in [general]; [general]
    is renamed while member 9 gets an empty overwrite; [general] is seen
    again, nothing changed. *)
Lemma permission_diff_excludes_field_diff_witness :
  @ServerLog.make_channel_update_embed sample_platform 100 general general_unmuted =
    Ok (Some {| title := "Text channel permissions updated";
                description := ("<#42> permissions have been updated." +:+ LF +:+ LF)
                               +:+ String.concat LF
                                     (@ServerLog.embed_lines sample_platform general general_unmuted);
                color := Some dark_blue; fields := []; timestamp := Some 100;
                thumbnail := None; author := None; footer := None |})
  /\ @ServerLog.make_channel_update_embed sample_platform 100 general lounge =
       @field_diff sample_platform 100 general lounge
  /\ @ServerLog.make_channel_update_embed sample_platform 100 general general_again =
       @field_diff sample_platform 100 general general_again.
Proof.
  split; [| split].
  - apply (proj1 (@permission_diff_excludes_field_diff sample_platform 100 general
                    general_unmuted) "Text channel").
    + intros Heq. apply (f_equal (fun m => m !! Role 7)) in Heq.
      vm_compute in Heq. discriminate Heq.
    + intros Hnil. vm_compute in Hnil. discriminate Hnil.
    + reflexivity.
  - apply (proj1 (proj2 (@permission_diff_excludes_field_diff sample_platform 100 general
                           lounge))).
    vm_compute. reflexivity.
  - apply (proj2 (proj2 (@permission_diff_excludes_field_diff sample_platform 100 general
                           general_again))).
    reflexivity.
Defined.

(** C1 (counterexample): [general] is renamed and member 9 gets an empty
    overwrite in the same update.  The overwrite mappings differ, yet the
    embed returned is the field diff of the name. *)
Lemma permission_change_with_field_diff :
  overwrites general ≠ overwrites lounge
  /\ @ServerLog.make_channel_update_embed sample_platform 100 general lounge =
       Ok (Some {| title := "Text Channel updated";
                   description := "**Channel:** <#42>";
                   color := Some dark_blue;
                   fields := [ {| field_name := "Before"; field_value := "**Name:** general";
                                  inline := true |};
                               {| field_name := "After"; field_value := "**Name:** lounge";
                                  inline := true |} ];
                   timestamp := Some 100;
                   thumbnail := None; author := None; footer := None |}).
Proof.
  split.
  - intros Heq. apply (f_equal (fun m => m !! Member 9)) in Heq.
    vm_compute in Heq. discriminate Heq.
  - vm_compute. reflexivity.
Qed.

(** C2 (failing input): a store channel in which role 7 is allowed to send
    messages.  The permission diff has a line, no branch bound
    [channel_type], and building the title raises. *)
Theorem store_channel_permission_change_raises :
  @ServerLog.make_channel_update_embed sample_platform 100 store store_unmuted =
    Raise UnboundLocalError.
Proof. vm_compute. reflexivity. Qed.

(** *** The log-channel resolver *)

(** [guild.get_channel] finds nothing under an id the guild has no channel for. *)
Lemma get_channel_unknown guild i :
  channels guild !! i = None -> get_channel guild (VInt i) = None.
Proof.
  intros Hnone. unfold get_channel. by rewrite Hnone.
Qed.

(** Where the store answers [None], [int(server_log_id)] raises before the
    guild is asked for the channel. *)
Lemma server_send_log_store_None bot guild message w :
  log_channels bot "server_log" (guild_id guild) = VNone ->
  ServerLog.send_log bot guild message w = (Raise TypeError, w).
Proof. intros Hnone. unfold ServerLog.send_log. rewrite Hnone. reflexivity. Qed.

(** The voice log passes the id on as it is: a [None] finds no channel, and
    [send_log] returns [False] without sending. *)
Lemma voice_send_log_store_None bot guild message w :
  log_channels bot "voice_log" (guild_id guild) = VNone ->
  VoiceLog.send_log bot guild message w = (Ok false, w).
Proof. intros Hnone. unfold VoiceLog.send_log. rewrite Hnone. reflexivity. Qed.

(** C3 (failing input): the store has no server-log channel for the guild and
    answers [None]; [ServerLog.send_log] raises [TypeError]. *)
Theorem server_send_log_unset_raises :
  ServerLog.send_log (bot_with VNone) sample_guild (Rich sample_embed) empty_world =
    (Raise TypeError, empty_world).
Proof. apply server_send_log_store_None. reflexivity. Qed.

(** C4: when the store returns a channel id that the guild has no channel
    for, [send_log] returns [False] and the world is as it was: nothing was
    sent.  This holds for the server log, which converts the id with [int],
    and for the voice log, which looks the id up as it is. *)
Theorem send_log_unknown_channel bot guild message w :
  (forall i,
     py_int (log_channels bot "server_log" (guild_id guild)) = Ok i ->
     channels guild !! i = None ->
     ServerLog.send_log bot guild message w = (Ok false, w))
  /\ (get_channel guild (log_channels bot "voice_log" (guild_id guild)) = None ->
      VoiceLog.send_log bot guild message w = (Ok false, w)).
Proof.
  split.
  - intros i Hint Hnone. unfold ServerLog.send_log. rewrite Hint.
    unfold mbind, IO_bind, lift. by rewrite get_channel_unknown.
  - intros Hnone. unfold VoiceLog.send_log. by rewrite Hnone.
Qed.

(** C4 (witness): the store holds the id 77, as an integer and as a string;
    the guild has the channels 42 and 43. *)
Lemma send_log_unknown_channel_witness :
  ServerLog.send_log (bot_with (VStr "77")) sample_guild (Rich sample_embed) empty_world
    = (Ok false, empty_world)
  /\ VoiceLog.send_log (bot_with (VInt 77)) sample_guild (Rich sample_embed) empty_world
    = (Ok false, empty_world).
Proof.
  split.
  - apply (proj1 (send_log_unknown_channel (bot_with (VStr "77")) sample_guild
                    (Rich sample_embed) empty_world) 77); reflexivity.
  - apply (proj2 (send_log_unknown_channel (bot_with (VInt 77)) sample_guild
                    (Rich sample_embed) empty_world)); reflexivity.
Defined.

(** *** The lines of the permission diff *)

Section PermissionDiffProperties.
Context `{Platform}.
Import ServerLog.


End PermissionDiffProperties.


(** *** Field diffs *)

Section FieldDiffProperties.
Context `{Platform}.
Import ServerLog.

(** One turn of the loop, once the field has been read. *)
Lemma diff_loop_step b a param rest fb fa vb va l :
  read_param b a param = Ok (vb, va, l) ->
  diff_loop b a (param :: rest) fb fa =
    if py_ne vb va
    then diff_loop b a rest (fb ++ [field_line l vb]) (fa ++ [field_line l va])
    else diff_loop b a rest fb fa.
Proof. intros Hread. simpl. rewrite Hread. reflexivity. Qed.

(** What the loop compares for each field of a text channel. *)
Lemma read_name b a :
  read_param b a ("name", Label "Name") = Ok (VStr (name b), VStr (name a), "Name").
Proof. reflexivity. Qed.

Lemma read_topic b a :
  read_param b a ("topic", Label "Topic") =
    Ok (match topic b with Some s => VStr s | None => VNone end,
        match topic a with Some s => VStr s | None => VNone end, "Topic").
Proof. reflexivity. Qed.

Lemma read_is_nsfw_called b a :
  read_param b a ("is_nsfw", Transformed call_is_nsfw "NSFW") =
    Ok (VBool (nsfw b), VBool (nsfw a), "NSFW").
Proof. reflexivity. Qed.

Lemma read_slowmode_delay b a :
  read_param b a ("slowmode_delay", Transformed slowmode_readable "Slowmode delay") =
    Ok (if Z.eqb (slowmode_delay b) 0 then VNone else VStr (stringify_duration (slowmode_delay b)),
        if Z.eqb (slowmode_delay a) 0 then VNone else VStr (stringify_duration (slowmode_delay a)),
        "Slowmode delay").
Proof.
  unfold read_param. simpl.
  destruct (Z.eqb (slowmode_delay b) 0), (Z.eqb (slowmode_delay a) 0); reflexivity.
Qed.

Lemma read_category b a :
  read_param b a ("category", Label "Category") =
    Ok (match category b with Some (i, n) => VChannel i n | None => VNone end,
        match category a with Some (i, n) => VChannel i n | None => VNone end, "Category").
Proof. reflexivity. Qed.

(** C6: two snapshots of a text channel with the same overwrites, name, NSFW
    flag, slowmode delay and category, and different topics.  The embed
    returned has a Before column that is the one line labelled Topic with the
    topic before, and an After column that is the one line labelled Topic with
    the topic after. *)
Theorem topic_only_change now b a :
  class b = TextChannel ->
  overwrites b = overwrites a ->
  name b = name a ->
  nsfw b = nsfw a ->
  slowmode_delay b = slowmode_delay a ->
  category b = category a ->
  topic b ≠ topic a ->
  make_channel_update_embed now b a =
    Ok (Some {| title := "Text Channel updated";
                description := "**Channel:** " +:+ mention a;
                color := Some dark_blue;
                fields := [ {| field_name := "Before";
                               field_value := "**Topic:** " +:+ default "None" (topic b);
                               inline := true |};
                            {| field_name := "After";
                               field_value := "**Topic:** " +:+ default "None" (topic a);
                               inline := true |} ];
                timestamp := Some now;
                thumbnail := None; author := None; footer := None |}).
Proof.
  intros Hcls How Hname Hnsfw Hslow Hcat Htopic.
  rewrite make_channel_update_embed_cases.
  rewrite bool_decide_eq_false_2 by (intros Hne; by apply Hne).
  rewrite Hcls. unfold declared, _specific_channel_update_embed, text_check_params.
  rewrite (diff_loop_step _ _ _ _ _ _ _ _ _ (read_name b a)), Hname, py_ne_refl.
  rewrite (diff_loop_step _ _ _ _ _ _ _ _ _ (read_topic b a)).
  assert (py_ne match topic b with Some s => VStr s | None => VNone end
                match topic a with Some s => VStr s | None => VNone end = true) as ->.
  { destruct (topic b) as [s |], (topic a) as [t |]; try reflexivity.
    - apply py_ne_VStr. congruence.
    - contradiction. }
  rewrite (diff_loop_step _ _ _ _ _ _ _ _ _ (read_is_nsfw_called b a)), Hnsfw, py_ne_refl.
  rewrite (diff_loop_step _ _ _ _ _ _ _ _ _ (read_slowmode_delay b a)), Hslow, py_ne_refl.
  rewrite (diff_loop_step _ _ _ _ _ _ _ _ _ (read_category b a)), Hcat, py_ne_refl.
  destruct (topic b), (topic a); reflexivity.
Qed.

(** Two snapshots with equal permission-overwrite mappings, none of whose
    declared fields the loop finds to differ: the formatter returns [None],
    and [on_guild_channel_update] leaves the world as it was. *)
Theorem identical_snapshots_yield_nothing bot now guild b a :
  overwrites b = overwrites a ->
  (forall param, param ∈ declared_params (class b) -> field_differs b a param = false) ->
  make_channel_update_embed now b a = Ok None
  /\ forall w, on_guild_channel_update bot now guild b a w = (Ok tt, w).
Proof.
  intros How Hsame.
  assert (make_channel_update_embed now b a = Ok None) as Hnone.
  { rewrite make_channel_update_embed_cases.
    rewrite bool_decide_eq_false_2 by (intros Hne; by apply Hne).
    pose proof (read_param_declared b a) as Hread.
    unfold declared_params in Hsame, Hread.
    destruct (declared (class b)) as [[title params] |]; [| reflexivity].
    unfold _specific_channel_update_embed.
    rewrite diff_loop_unchanged; [reflexivity |].
    intros param Hin. destruct (Hread param Hin) as (vb & va & Hr).
    exists vb, va, (label_of param). split; [exact Hr |].
    specialize (Hsame param Hin). unfold field_differs in Hsame.
    by rewrite Hr in Hsame. }
  split; [exact Hnone |].
  intros w. unfold on_guild_channel_update. rewrite Hnone. reflexivity.
Qed.

(** A text, voice or store channel whose two snapshots agree on every
    attribute and on the overwrites yields nothing. *)
Lemma same_attributes_yield_nothing now b a :
  class b ≠ CategoryChannel ->
  overwrites b = overwrites a ->
  name b = name a -> topic b = topic a -> nsfw b = nsfw a ->
  slowmode_delay b = slowmode_delay a -> bitrate b = bitrate a ->
  user_limit b = user_limit a -> category b = category a ->
  make_channel_update_embed now b a = Ok None.
Proof.
  intros Hcls How Hname Htopic Hnsfw Hslow Hbit Hlimit Hcat.
  apply (identical_snapshots_yield_nothing (bot_with VNone) now sample_guild b a How).
  intros param Hin. unfold declared_params, declared in Hin.
  destruct (class b); try contradiction;
    repeat (apply elem_of_cons in Hin as [-> | Hin]);
    try (by apply elem_of_nil in Hin);
    unfold field_differs, read_param, getattr; cbn [String.eqb Ascii.eqb Bool.eqb];
    cbn [mbind result_bind call_is_nsfw slowmode_readable readable_bitrate];
    rewrite ?Hname, ?Htopic, ?Hnsfw, ?Hslow, ?Hbit, ?Hlimit, ?Hcat;
    try apply py_ne_refl.
  destruct (Z.eqb (slowmode_delay a) 0); apply py_ne_refl.
Qed.

(** What the loop compares for the NSFW entry of a category: the bound
    methods, uncalled. *)
Lemma read_is_nsfw_method b a :
  read_param b a ("is_nsfw", Label "NSFW") =
    Ok (VMethod (class_name (class b) +:+ ".is_nsfw") (self b) (repr b) (nsfw b),
        VMethod (class_name (class a) +:+ ".is_nsfw") (self a) (repr a) (nsfw a),
        "NSFW").
Proof. reflexivity. Qed.

(** Two snapshots of a category that are different objects always yield a
    field diff when the permission diff has no line, whatever their
    attributes: the bound methods [is_nsfw] of two objects are not equal. *)
Lemma category_update_reports_nsfw now b a :
  class b = CategoryChannel ->
  self b ≠ self a ->
  embed_lines b a = [] ->
  exists e, make_channel_update_embed now b a = Ok (Some e)
            /\ title e = "Category Channel updated" /\ fields e ≠ [].
Proof.
  intros Hcls Hself Hnil. rewrite make_channel_update_embed_cases.
  rewrite _channel_permissions_diff_embed_cases, Hnil.
  assert ((if bool_decide (overwrites b ≠ overwrites a)
           then Ok None else Ok None) = Ok (@None Embed)) as -> by by destruct (bool_decide _).
  rewrite Hcls. unfold declared, _specific_channel_update_embed, category_check_params.
  rewrite (diff_loop_step _ _ _ _ _ _ _ _ _ (read_name b a)).
  assert (forall fb fa,
            diff_loop b a [("is_nsfw", Label "NSFW")] fb fa =
              Ok ((fb ++ [before_line b a ("is_nsfw", Label "NSFW")])%list,
                  (fa ++ [after_line b a ("is_nsfw", Label "NSFW")])%list)) as Hloop.
  { intros fb fa. rewrite (diff_loop_step _ _ _ _ _ _ _ _ _ (read_is_nsfw_method b a)).
    unfold py_ne, py_eq. apply Z.eqb_neq in Hself. rewrite Hself, andb_false_r.
    reflexivity. }
  destruct (py_ne (VStr (name b)) (VStr (name a))); rewrite Hloop; simpl;
    eexists; (split; [reflexivity |]); (split; [reflexivity | discriminate]).
Qed.

(** The loop adds the lines of the fields that differ, and of no other. *)
Lemma diff_loop_filter b a params : forall fb fa,
  (forall param, param ∈ params -> exists vb va l, read_param b a param = Ok (vb, va, l)) ->
  diff_loop b a params fb fa =
    Ok ((fb ++ map (before_line b a) (List.filter (field_differs b a) params))%list,
        (fa ++ map (after_line b a) (List.filter (field_differs b a) params))%list).
Proof.
  induction params as [| param rest IH]; intros fb fa Hread.
  - simpl. by rewrite !app_nil_r.
  - destruct (Hread param) as (vb & va & l & Hr); [left |].
    assert (field_differs b a param = py_ne vb va) as Hfd
      by (unfold field_differs; by rewrite Hr).
    assert (before_line b a param = field_line l vb) as Hbl
      by (unfold before_line; by rewrite Hr).
    assert (after_line b a param = field_line l va) as Hal
      by (unfold after_line; by rewrite Hr).
    rewrite (diff_loop_step _ _ _ _ _ _ _ _ _ Hr).
    cbn [List.filter]. rewrite Hfd.
    destruct (py_ne vb va).
    + rewrite IH by (intros p Hp; apply Hread; by right).
      cbn [map]. rewrite Hbl, Hal. by rewrite <- !app_assoc.
    + apply IH. intros p Hp. apply Hread. by right.
Qed.




End FieldDiffProperties.


(** C6 (witness): the topic of [general] goes from talk to chat. *)
Lemma topic_only_change_witness :
  @ServerLog.make_channel_update_embed sample_platform 100 general general_retopic =
    Ok (Some {| title := "Text Channel updated";
                description := "**Channel:** <#42>";
                color := Some dark_blue;
                fields := [ {| field_name := "Before"; field_value := "**Topic:** talk";
                               inline := true |};
                            {| field_name := "After"; field_value := "**Topic:** chat";
                               inline := true |} ];
                timestamp := Some 100;
                thumbnail := None; author := None; footer := None |}).
Proof.
  apply (@topic_only_change sample_platform 100 general general_retopic);
    try reflexivity.
  intros Heq. discriminate Heq.
Defined.

(** The category's NSFW entry has no transform: the loop compares the bound
    methods [is_nsfw] of the two snapshots, not what they return.  Two
    snapshots that are different objects differ in this field whatever their
    flags, and the text channel's entry, which calls the method, does not. *)
Example category_nsfw_compares_methods :
  field_differs archive archive_again ("is_nsfw", ServerLog.Label "NSFW") = true
  /\ field_differs archive archive_again
       ("is_nsfw", ServerLog.Transformed ServerLog.call_is_nsfw "NSFW") = false.
Proof. split; reflexivity. Qed.

(** [general] and a second snapshot with the same attributes. *)
Lemma identical_snapshots_yield_nothing_witness :
  @ServerLog.make_channel_update_embed sample_platform 100 general general_again = Ok None.
Proof.
  apply (@identical_snapshots_yield_nothing sample_platform (bot_with VNone) 100 sample_guild
           general general_again).
  - reflexivity.
  - intros param Hin.
    repeat (apply elem_of_cons in Hin as [-> | Hin]); try reflexivity.
    by apply elem_of_nil in Hin.
Defined.

(** C7 (failing input): two snapshots of the category [archive], different
    objects with the same attributes and no overwrite.  The formatter does
    not return [None]: it returns a field diff whose only entry is NSFW, the
    two bound methods printed. *)
Theorem identical_category_snapshots_yield_embed :
  @ServerLog.make_channel_update_embed sample_platform 100 archive archive_again =
    Ok (Some {| title := "Category Channel updated";
                description := "**Channel:** <#44>";
                color := Some dark_blue;
                fields :=
                  [ {| field_name := "Before";
                       field_value := "**NSFW:** <bound method CategoryChannel.is_nsfw of "
                                      +:+ "<CategoryChannel id=44 name='archive' position=0 "
                                      +:+ "nsfw=False>>";
                       inline := true |};
                    {| field_name := "After";
                       field_value := "**NSFW:** <bound method CategoryChannel.is_nsfw of "
                                      +:+ "<CategoryChannel id=44 name='archive' position=0 "
                                      +:+ "nsfw=False>>";
                       inline := true |} ];
                timestamp := Some 100;
                thumbnail := None; author := None; footer := None |}).
Proof. vm_compute. reflexivity. Qed.


(** *** The voice-state listener *)

Section VoiceLogProperties.
Import VoiceLog.

(** C10: the member's channel changed and there is no channel after the
    update.  If the AFK flag did not change too, the embed built is the one
    titled "User left voice channel" and its description is the empty string:
    neither the member nor the channel left is named; that is the embed the
    listener hands to [send_log], with the member's avatar as thumbnail.  And
    whatever the flags, an embed of that title has the empty description. *)
Theorem left_voice_description_empty bot member before after :
  py_ne (channel_value before) (channel_value after) = true ->
  channel after = None ->
  (afk before = afk after ->
     voice_state_embed member before after = Some (mk_embed "User left voice channel" "" blue)
     /\ on_voice_state_update bot member before after =
          (_ ← send_log bot (guild member)
                 (Rich (set_thumbnail (avatar_url member)
                          (mk_embed "User left voice channel" "" blue)));
           mret tt))
  /\ (forall e, voice_state_embed member before after = Some e ->
        title e = "User left voice channel" -> description e = "").
Proof.
  intros Hne Hnone. unfold on_voice_state_update, voice_state_embed.
  rewrite Hne, Hnone. simpl. split.
  - intros ->. rewrite Bool.eqb_reflx. simpl. split; reflexivity.
  - intros e. destruct (Bool.eqb (afk before) (afk after)); simpl.
    + intros [= <-]. reflexivity.
    + destruct (afk after); intros [= <-]; simpl; discriminate.
Qed.

End VoiceLogProperties.

(** C10 (witness): [alice] leaves the voice channel General. *)
Lemma left_voice_description_empty_witness :
  VoiceLog.voice_state_embed alice in_voice out_of_voice =
    Some (mk_embed "User left voice channel" "" blue).
Proof.
  apply (left_voice_description_empty (bot_with VNone) alice in_voice out_of_voice);
    reflexivity.
Defined.

(** *** The owner check of the sudo cog *)

Section SudoProperties.
Context `{Platform}.
Import Sudo.

Lemma cog_check_stranger ctx w :
  author_id ctx ∉ devs ->
  cog_check ctx w =
    (Ok false, {| loaded := loaded w;
                  trace := trace w ++ [Sent (channel_id ctx) (Rich owner_only_embed)] |}).
Proof.
  intros Hdev. unfold cog_check, is_dev. by rewrite bool_decide_eq_false_2.
Qed.

Lemma cog_check_dev ctx w : author_id ctx ∈ devs -> cog_check ctx w = (Ok true, w).
Proof. intros Hdev. unfold cog_check, is_dev. by rewrite bool_decide_eq_true_2. Qed.

(** For a dev the check passes: the command's callback runs in the same world. *)
Lemma invoke_dev bot ctx command w :
  author_id ctx ∈ devs -> invoke bot ctx command w = callback bot ctx command w.
Proof.
  intros Hdev. unfold invoke, checked, mbind, IO_bind.
  rewrite cog_check_dev by done. simpl. rewrite cog_check_dev by done. reflexivity.
Qed.

(** C9: a sudo command invoked by an author who is not in [config.devs] does
    not run: the invocation ends in [CheckFailure], the extensions loaded are
    as they were, and the only thing done is sending the owner-only notice to
    the author's channel; no reaction, no close, no restart, no load, reload
    or unload, no statistics.  [shutdown] and [restart] check the author
    themselves as well, and do nothing for such an author. *)
Theorem sudo_commands_are_dev_only bot ctx command w :
  author_id ctx ∉ devs ->
  invoke bot ctx command w =
    (Raise CheckFailure,
     {| loaded := loaded w;
        trace := trace w ++ [Sent (channel_id ctx) (Rich owner_only_embed)] |})
  /\ shutdown bot ctx w = (Ok tt, w)
  /\ restart bot ctx w = (Ok tt, w).
Proof.
  intros Hdev. repeat split.
  - unfold invoke, checked, mbind, IO_bind.
    rewrite cog_check_stranger by done. reflexivity.
  - unfold shutdown, is_dev. by rewrite bool_decide_eq_false_2.
  - unfold restart, is_dev. by rewrite bool_decide_eq_false_2.
Qed.

End SudoProperties.

(** C9 (witness): user 5 asks for a shutdown. *)
Lemma sudo_commands_are_dev_only_witness :
  @Sudo.invoke sample_platform (bot_with VNone) stranger_ctx Sudo.Shutdown empty_world =
    (Raise CheckFailure,
     {| loaded := []; trace := [Sent 42 (Rich Sudo.owner_only_embed)] |}).
Proof.
  apply (@sudo_commands_are_dev_only sample_platform (bot_with VNone) stranger_ctx
           Sudo.Shutdown empty_world).
  intros Hin. simpl in Hin.
  repeat (apply elem_of_cons in Hin as [Heq | Hin]; [discriminate Heq |]).
  by apply elem_of_nil in Hin.
Defined.

(** A dev's shutdown goes through: the message gets its reaction and the bot
    closes. *)
Example dev_shutdown_closes :
  @Sudo.invoke sample_platform (bot_with VNone) dev_ctx Sudo.Shutdown empty_world =
    (Ok tt, {| loaded := []; trace := [Reacted 901 "✅"; Closed] |}).
Proof. vm_compute. reflexivity. Qed.

(** ** Further properties *)

(** *** The field diff, field by field *)

Section FieldDiffExact.
Context `{Platform}.
Import ServerLog.

(** X1: when the permission diff has no line, the result of
    [make_channel_update_embed] is decided by the declared fields that
    differ: none, and it is [None]; otherwise it is the embed whose Before and
    After columns hold one line for each of them, in declaration order, and
    for no other field. *)
Theorem field_diff_lists_changed_fields now b a :
  embed_lines b a = [] ->
  make_channel_update_embed now b a =
    match declared (class b), changed_fields b a with
    | Some (title, _), (_ :: _) as changed =>
        Ok (Some {| title := title;
                    description := "**Channel:** " +:+ mention a;
                    color := Some dark_blue;
                    fields := [ {| field_name := "Before";
                                   field_value := String.concat LF (map (before_line b a) changed);
                                   inline := true |};
                                {| field_name := "After";
                                   field_value := String.concat LF (map (after_line b a) changed);
                                   inline := true |} ];
                    timestamp := Some now;
                    thumbnail := None; author := None; footer := None |})
    | _, _ => Ok None
    end.
Proof.
  intros Hnil. rewrite make_channel_update_embed_cases.
  rewrite _channel_permissions_diff_embed_cases, Hnil.
  assert ((if bool_decide (overwrites b ≠ overwrites a)
           then Ok None else Ok None) = Ok (@None Embed)) as -> by by destruct (bool_decide _).
  pose proof (read_param_declared b a) as Hread.
  unfold changed_fields, declared_params in *.
  destruct (declared (class b)) as [[title params] |]; [| reflexivity].
  unfold _specific_channel_update_embed.
  rewrite diff_loop_filter.
  - simpl. destruct (List.filter (field_differs b a) params); reflexivity.
  - intros param Hin. destruct (Hread param Hin) as (vb & va & Hr). eauto.
Qed.

(** X2: every embed [make_channel_update_embed] returns is dark blue and
    carries the time of formatting, and it is of one of two kinds: a
    permission embed, without fields, titled after the channel type, returned
    only when the overwrite mappings differ; or a field diff, titled after
    the channel class, describing the channel by its mention, with the two
    fields Before and After. *)
Theorem returned_embed_shape now b a e :
  make_channel_update_embed now b a = Ok (Some e) ->
  timestamp e = Some now /\ color e = Some dark_blue /\ thumbnail e = None
  /\ ((fields e = [] /\ overwrites b ≠ overwrites a
       /\ exists ty, channel_type b = Some ty /\ title e = ty +:+ " permissions updated")
      \/ (exists t params vb va,
            declared (class b) = Some (t, params) /\ title e = t
            /\ description e = "**Channel:** " +:+ mention a
            /\ fields e = [ {| field_name := "Before"; field_value := vb; inline := true |};
                            {| field_name := "After"; field_value := va; inline := true |} ])).
Proof.
  rewrite make_channel_update_embed_cases. intros Hmake.
  destruct (bool_decide (overwrites b ≠ overwrites a)) eqn:Hdiff.
  - rewrite _channel_permissions_diff_embed_cases in Hmake.
    destruct (embed_lines b a) as [| line lines].
    + destruct (declared (class b)) as [[t params] |]; [| discriminate].
      unfold _specific_channel_update_embed in Hmake.
      destruct (diff_loop b a params [] []) as [[lb la] |]; [| discriminate].
      simpl in Hmake. destruct (Nat.eqb (length la) 0); [discriminate |].
      injection Hmake as <-. repeat split. right. by eexists _, _, _, _.
    + destruct (channel_type b) as [ty |] eqn:Hty; [| discriminate].
      injection Hmake as <-. repeat split. left.
      split; [reflexivity |]. split; [by apply bool_decide_eq_true_1 in Hdiff |].
      by exists ty.
  - destruct (declared (class b)) as [[t params] |]; [| discriminate].
    unfold _specific_channel_update_embed in Hmake.
    destruct (diff_loop b a params [] []) as [[lb la] |]; [| discriminate].
    simpl in Hmake. destruct (Nat.eqb (length la) 0); [discriminate |].
    injection Hmake as <-. repeat split. right. by eexists _, _, _, _.
Qed.

(** X3: a text channel whose slowmode is lifted, nothing else changing: the
    After column shows [None] for the delay, not a duration of zero, and the
    Before column shows the delay as [stringify_duration] prints it. *)
Theorem slowmode_lifted_prints_None now b a :
  class b = TextChannel ->
  overwrites b = overwrites a ->
  name b = name a ->
  topic b = topic a ->
  nsfw b = nsfw a ->
  category b = category a ->
  slowmode_delay b ≠ 0 ->
  slowmode_delay a = 0 ->
  make_channel_update_embed now b a =
    Ok (Some {| title := "Text Channel updated";
                description := "**Channel:** " +:+ mention a;
                color := Some dark_blue;
                fields := [ {| field_name := "Before";
                               field_value := "**Slowmode delay:** "
                                              +:+ stringify_duration (slowmode_delay b);
                               inline := true |};
                            {| field_name := "After";
                               field_value := "**Slowmode delay:** None";
                               inline := true |} ];
                timestamp := Some now;
                thumbnail := None; author := None; footer := None |}).
Proof.
  intros Hcls How Hname Htopic Hnsfw Hcat Hb Ha.
  rewrite make_channel_update_embed_cases.
  rewrite bool_decide_eq_false_2 by (intros Hne; by apply Hne).
  rewrite Hcls. unfold declared, _specific_channel_update_embed, text_check_params.
  rewrite (diff_loop_step _ _ _ _ _ _ _ _ _ (read_name b a)), Hname, py_ne_refl.
  rewrite (diff_loop_step _ _ _ _ _ _ _ _ _ (read_topic b a)), Htopic, py_ne_refl.
  rewrite (diff_loop_step _ _ _ _ _ _ _ _ _ (read_is_nsfw_called b a)), Hnsfw, py_ne_refl.
  rewrite (diff_loop_step _ _ _ _ _ _ _ _ _ (read_slowmode_delay b a)).
  apply Z.eqb_neq in Hb. rewrite Ha, Hb. change (Z.eqb 0 0) with true.
  cbn [py_ne py_eq negb].
  rewrite (diff_loop_step _ _ _ _ _ _ _ _ _ (read_category b a)), Hcat, py_ne_refl.
  reflexivity.
Qed.

End FieldDiffExact.

(** X1 (witness): [general] is renamed while member 9 gets an empty overwrite. *)
Lemma field_diff_lists_changed_fields_witness :
  @ServerLog.make_channel_update_embed sample_platform 100 general lounge =
    match @declared sample_platform (class general),
          @changed_fields sample_platform general lounge with
    | Some (title, _), (_ :: _) as changed =>
        Ok (Some {| title := title;
                    description := "**Channel:** " +:+ mention lounge;
                    color := Some dark_blue;
                    fields := [ {| field_name := "Before";
                                   field_value :=
                                     String.concat LF (map (before_line general lounge) changed);
                                   inline := true |};
                                {| field_name := "After";
                                   field_value :=
                                     String.concat LF (map (after_line general lounge) changed);
                                   inline := true |} ];
                    timestamp := Some 100;
                    thumbnail := None; author := None; footer := None |})
    | _, _ => Ok None
    end.
Proof.
  apply (@field_diff_lists_changed_fields sample_platform 100 general lounge).
  vm_compute. reflexivity.
Defined.

(** X2 (witness): the embed of renaming [general] to [lounge]. *)
Lemma returned_embed_shape_witness :
  timestamp renamed_embed = Some 100.
Proof.
  apply (@returned_embed_shape sample_platform 100 general lounge renamed_embed).
  vm_compute. reflexivity.
Defined.

(** X3 (witness): the slowmode of [general] goes from 90 seconds to none. *)
Lemma slowmode_lifted_prints_None_witness :
  @ServerLog.make_channel_update_embed sample_platform 100 general_slow general_again =
    Ok (Some {| title := "Text Channel updated";
                description := "**Channel:** <#42>";
                color := Some dark_blue;
                fields := [ {| field_name := "Before";
                               field_value := "**Slowmode delay:** 90 seconds";
                               inline := true |};
                            {| field_name := "After";
                               field_value := "**Slowmode delay:** None";
                               inline := true |} ];
                timestamp := Some 100;
                thumbnail := None; author := None; footer := None |}).
Proof.
  apply (@slowmode_lifted_prints_None sample_platform 100 general_slow general_again);
    try reflexivity.
  intros Heq. discriminate Heq.
Defined.

(** *** The permission diff, subject by subject *)

Lemma flat_map_nil {A B} (f : A -> list B) (l : list A) :
  flat_map f l = [] <-> forall x, x ∈ l -> f x = [].
Proof.
  induction l as [| z l IH]; simpl.
  - split; [intros _ x Hx; by apply elem_of_nil in Hx | done].
  - split.
    + intros Happ. apply app_eq_nil in Happ as [Hz Hl].
      intros x Hx. apply elem_of_cons in Hx as [-> | Hx]; [done |].
      by apply IH.
    + intros Hall. rewrite (Hall z) by left. simpl.
      apply IH. intros x Hx. apply Hall. by right.
Qed.

Section PermissionDiffExact.
Context `{Platform}.
Import ServerLog.

Lemma subject_lines_nil b a s :
  subject_lines b a s = [] -> overwrites_for b s = overwrites_for a s.
Proof.
  unfold subject_lines.
  destruct (bool_decide (overwrites_for b s = overwrites_for a s)) eqn:Heq.
  - intros _. by apply bool_decide_eq_true_1 in Heq.
  - discriminate.
Qed.

(** The permission diff has no line exactly when no subject's overwrite
    differs between the snapshots. *)
Lemma embed_lines_nil b a :
  embed_lines b a = [] <-> forall s, overwrites_for b s = overwrites_for a s.
Proof.
  unfold embed_lines. rewrite flat_map_nil. split.
  - intros Hall s.
    destruct (decide (s ∈ dom (overwrites b) ∪ dom (overwrites a))) as [Hin | Hout].
    + apply subject_lines_nil, Hall. by apply elem_of_elements.
    + apply not_elem_of_union in Hout as [Hb Ha].
      apply not_elem_of_dom in Hb, Ha. unfold overwrites_for. by rewrite Hb, Ha.
  - intros Hall s _. by apply subject_lines_unchanged.
Qed.

(** X4: [_channel_permissions_diff_embed] returns [None] exactly when every
    subject has the same overwrite in both snapshots, a subject without an
    entry counting as one with the empty overwrite.  So an overwrite that is
    added or removed with every permission unset yields no embed, for a
    channel of any class. *)
Theorem permission_diff_none_iff b a :
  _channel_permissions_diff_embed b a = Ok None
  <-> forall s, overwrites_for b s = overwrites_for a s.
Proof.
  rewrite <- embed_lines_nil, _channel_permissions_diff_embed_cases.
  destruct (embed_lines b a) as [| line lines], (channel_type b); split;
    try reflexivity; discriminate.
Qed.

(** X5: one subject's overwrite changes in one permission of the table, from
    [x] to [y] (set or unset), and nothing else changes.  Then the permission
    diff is the subject's header and one line, that of the permission with the
    symbols of [x] and [y]; this covers an overwrite that is added or removed
    with one permission set. *)
Theorem single_permission_change b a Y key x y :
  NoDup PURE_FLAGS ->
  key ∈ PURE_FLAGS ->
  (forall X, X ≠ Y -> overwrites_for b X = overwrites_for a X) ->
  overwrites_for b Y !! key = x ->
  overwrites_for a Y !! key = y ->
  x ≠ y ->
  (forall k, k ≠ key -> overwrites_for b Y !! k = overwrites_for a Y !! k) ->
  embed_lines b a = [subject_header Y; permission_line key x y].
Proof.
  intros Hnodup Hflag Hothers Hx Hy Hxy Hrest.
  assert (overwrites_for b Y ≠ overwrites_for a Y) as Hdiff.
  { intros Heq. apply Hxy. by rewrite <- Hx, <- Hy, Heq. }
  unfold embed_lines. rewrite (flat_map_single _ _ Y).
  - unfold subject_lines. rewrite bool_decide_eq_false_2 by done.
    unfold subject_header. f_equal. rewrite perm_lines_by_flag.
    rewrite (flat_map_single _ _ key); [| done | done |].
    + rewrite Hx, Hy. unfold perm_line. simpl.
      by rewrite bool_decide_eq_true_2.
    + intros k _ Hk. rewrite (Hrest k Hk). unfold perm_line. simpl.
      by rewrite bool_decide_eq_false_2 by (intros Hne; by apply Hne).
  - apply NoDup_elements.
  - apply elem_of_elements.
    destruct (decide (Y ∈ dom (overwrites b) ∪ dom (overwrites a))) as [Hin | Hout]; [done |].
    exfalso. apply Hdiff.
    apply not_elem_of_union in Hout as [Hb Ha].
    apply not_elem_of_dom in Hb, Ha. unfold overwrites_for. by rewrite Hb, Ha.
  - intros X _ HX. by apply subject_lines_unchanged, Hothers.
Qed.

End PermissionDiffExact.

(** X5 (witness): member 9, who had no overwrite in [general], is denied
    sending messages. *)
Lemma single_permission_change_witness :
  @ServerLog.embed_lines sample_platform general general_member_muted =
    [ "**Overwrite changes for <@9>:**"; "**`Send messages:`** ⬜ ➜ ❌" ].
Proof.
  apply (@single_permission_change sample_platform general general_member_muted (Member 9)
           "send_messages" None (Some false)).
  - apply (bool_decide_unpack (NoDup discord_flags)). vm_compute. exact I.
  - apply (bool_decide_unpack ("send_messages" ∈ discord_flags)). vm_compute. exact I.
  - intros X HX. unfold ServerLog.overwrites_for. simpl.
    destruct (decide (X = Role 7)) as [-> | HR].
    + reflexivity.
    + rewrite lookup_insert_ne by done.
      rewrite !lookup_singleton_ne by done. reflexivity.
  - reflexivity.
  - reflexivity.
  - discriminate.
  - intros k Hk. unfold ServerLog.overwrites_for. simpl.
    rewrite lookup_singleton_ne by done. rewrite lookup_insert_ne by done.
    rewrite lookup_singleton_eq. simpl.
    rewrite lookup_empty. symmetry. by apply lookup_singleton_ne.
Defined.

(** *** Sending a log *)

Lemma get_channel_known guild i c :
  channels guild !! i = Some c -> get_channel guild (VInt i) = Some (i, c).
Proof. intros Hsome. unfold get_channel. by rewrite Hsome. Qed.

(** Sending to a text channel, and to a channel of another class. *)
Lemma send_text i c message w :
  class c = TextChannel ->
  send (i, c) message w = (Ok tt, {| loaded := loaded w; trace := trace w ++ [Sent i message] |}).
Proof. intros Hcls. unfold send. simpl. by rewrite Hcls. Qed.

Lemma send_other i c message w :
  class c ≠ TextChannel -> send (i, c) message w = (Raise AttributeError, w).
Proof. intros Hcls. unfold send. simpl. by destruct (class c). Qed.

(** What sending can do to the world: one send of the message, or nothing. *)
Lemma send_effect channel message w r w' :
  send channel message w = (r, w') ->
  loaded w' = loaded w
  /\ ((r = Ok tt /\ trace w' = (trace w ++ [Sent channel.1 message])%list)
      \/ (r ≠ Ok tt /\ trace w' = trace w)).
Proof.
  unfold send. destruct (class channel.2); intros [= <- <-]; simpl;
    (split; [reflexivity |]); (by left) || (by right).
Qed.

(** The server log's [send_log] once the id is converted and resolved. *)
Lemma server_send_log_resolved bot guild message w i c :
  py_int (log_channels bot "server_log" (guild_id guild)) = Ok i ->
  channels guild !! i = Some c ->
  ServerLog.send_log bot guild message w =
    match send (i, c) message w with
    | (Ok _, w') => (Ok true, w')
    | (Raise e, w') => (Raise e, w')
    end.
Proof.
  intros Hint Hsome. unfold ServerLog.send_log. rewrite Hint.
  unfold mbind, IO_bind, lift. rewrite (get_channel_known _ _ _ Hsome).
  by destruct (send (i, c) message w) as [[[] |] w'].
Qed.

(** X6: when the store's answer converts to the id of a channel of the guild,
    [ServerLog.send_log] sends the message to that channel, once, and returns
    [True], provided the channel is a text channel.  A channel of another
    class has no [send]: the coroutine raises [AttributeError] and nothing is
    sent. *)
Theorem server_send_log_delivers bot guild message w i c :
  py_int (log_channels bot "server_log" (guild_id guild)) = Ok i ->
  channels guild !! i = Some c ->
  (class c = TextChannel ->
     ServerLog.send_log bot guild message w =
       (Ok true, {| loaded := loaded w; trace := trace w ++ [Sent i message] |}))
  /\ (class c ≠ TextChannel ->
      ServerLog.send_log bot guild message w = (Raise AttributeError, w)).
Proof.
  intros Hint Hsome. rewrite (server_send_log_resolved _ _ _ _ _ _ Hint Hsome). split.
  - intros Hcls. by rewrite send_text.
  - intros Hcls. by rewrite send_other.
Qed.

(** X6 (witness): the store holds the id of [general], a text channel; and
    the id of [store], which is none. *)
Lemma server_send_log_delivers_witness :
  ServerLog.send_log (bot_with (VInt 42)) sample_guild (Rich sample_embed) empty_world =
    (Ok true, {| loaded := []; trace := [Sent 42 (Rich sample_embed)] |})
  /\ ServerLog.send_log (bot_with (VInt 43)) sample_guild (Rich sample_embed) empty_world =
       (Raise AttributeError, empty_world).
Proof.
  split.
  - apply (proj1 (server_send_log_delivers (bot_with (VInt 42)) sample_guild
                    (Rich sample_embed) empty_world 42 general eq_refl eq_refl)).
    reflexivity.
  - apply (proj2 (server_send_log_delivers (bot_with (VInt 43)) sample_guild
                    (Rich sample_embed) empty_world 43 store eq_refl eq_refl)).
    discriminate.
Defined.

(** X7: the two [send_log] disagree on an id the store holds as a string of
    digits.  The server log converts it and sends to the channel, a text
    channel; the voice log looks the string up among the guild's channels,
    whose keys are integers, finds nothing, and returns [False] without
    sending, even though the channel exists. *)
Theorem string_id_resolves_in_server_log_only bot guild message w s i c :
  log_channels bot "server_log" (guild_id guild) = VStr s ->
  log_channels bot "voice_log" (guild_id guild) = VStr s ->
  py_int (VStr s) = Ok i ->
  channels guild !! i = Some c ->
  class c = TextChannel ->
  ServerLog.send_log bot guild message w =
    (Ok true, {| loaded := loaded w; trace := trace w ++ [Sent i message] |})
  /\ VoiceLog.send_log bot guild message w = (Ok false, w).
Proof.
  intros Hserver Hvoice Hint Hsome Hcls. split.
  - rewrite <- Hserver in Hint.
    rewrite (server_send_log_resolved _ _ _ _ _ _ Hint Hsome). by rewrite send_text.
  - unfold VoiceLog.send_log. by rewrite Hvoice.
Qed.

(** X7 (witness): the store holds the id of [general] as a string. *)
Lemma string_id_resolves_in_server_log_only_witness :
  ServerLog.send_log (bot_with (VStr "42")) sample_guild (Rich sample_embed) empty_world =
    (Ok true, {| loaded := []; trace := [Sent 42 (Rich sample_embed)] |})
  /\ VoiceLog.send_log (bot_with (VStr "42")) sample_guild (Rich sample_embed) empty_world =
       (Ok false, empty_world).
Proof.
  apply (string_id_resolves_in_server_log_only (bot_with (VStr "42")) sample_guild
           (Rich sample_embed) empty_world "42" 42 general); reflexivity.
Defined.

(** X8: when the store holds the id of a channel of the guild as an integer,
    [MessageLog.send_log] sends the message to that channel, once, and
    returns [True], provided the channel is a text channel.  A channel of
    another class has no [send]: the coroutine raises [AttributeError] and
    nothing is sent. *)
Theorem voice_send_log_delivers bot guild message w i c :
  log_channels bot "voice_log" (guild_id guild) = VInt i ->
  channels guild !! i = Some c ->
  (class c = TextChannel ->
     VoiceLog.send_log bot guild message w =
       (Ok true, {| loaded := loaded w; trace := trace w ++ [Sent i message] |}))
  /\ (class c ≠ TextChannel ->
      VoiceLog.send_log bot guild message w = (Raise AttributeError, w)).
Proof.
  intros Hid Hsome. unfold VoiceLog.send_log. rewrite Hid.
  rewrite (get_channel_known _ _ _ Hsome). unfold mbind, IO_bind. split.
  - intros Hcls. by rewrite send_text.
  - intros Hcls. by rewrite send_other.
Qed.

(** X8 (witness): the store holds the id of [general], a text channel; and
    the id of [store], which is none. *)
Lemma voice_send_log_delivers_witness :
  VoiceLog.send_log (bot_with (VInt 42)) sample_guild (Rich sample_embed) empty_world =
    (Ok true, {| loaded := []; trace := [Sent 42 (Rich sample_embed)] |})
  /\ VoiceLog.send_log (bot_with (VInt 43)) sample_guild (Rich sample_embed) empty_world =
       (Raise AttributeError, empty_world).
Proof.
  split.
  - apply (proj1 (voice_send_log_delivers (bot_with (VInt 42)) sample_guild
                    (Rich sample_embed) empty_world 42 general eq_refl eq_refl)).
    reflexivity.
  - apply (proj2 (voice_send_log_delivers (bot_with (VInt 43)) sample_guild
                    (Rich sample_embed) empty_world 43 store eq_refl eq_refl)).
    discriminate.
Defined.

(** *** The channel-update listener *)

Section ChannelUpdateListener.
Context `{Platform}.
Import ServerLog.

(** What [send_log] can do to the world: nothing, or one send of the message. *)
Lemma server_send_log_effect bot guild message w r w' :
  send_log bot guild message w = (r, w') ->
  loaded w' = loaded w
  /\ (trace w' = trace w
      \/ exists i, r = Ok true /\ trace w' = (trace w ++ [Sent i message])%list).
Proof.
  unfold send_log, mbind, IO_bind, lift.
  destruct (py_int _) as [i |]; [| intros [= <- <-]; auto].
  destruct (get_channel guild (VInt i)) as [c |]; [| intros [= <- <-]; auto].
  destruct (send c message w) as [r0 w0] eqn:Hsend.
  apply send_effect in Hsend as [Hloaded [[-> Htrace] | [Hr Htrace]]].
  - intros [= <- <-]. eauto.
  - destruct r0 as [[] |]; [done |]. intros [= <- <-]. auto.
Qed.

(** X9: one channel update makes [on_guild_channel_update] send at most one
    message, and only the embed [make_channel_update_embed] returned; the
    extensions loaded are untouched.  If the listener raises, or if there is
    no embed, nothing is sent. *)
Theorem channel_update_logs_at_most_once bot now guild b a w r w' :
  on_guild_channel_update bot now guild b a w = (r, w') ->
  loaded w' = loaded w
  /\ (trace w' = trace w
      \/ exists i e,
           make_channel_update_embed now b a = Ok (Some e)
           /\ r = Ok tt
           /\ trace w' = (trace w ++ [Sent i (Rich e)])%list).
Proof.
  unfold on_guild_channel_update, mbind, IO_bind, lift.
  destruct (make_channel_update_embed now b a) as [[e |] |];
    [| intros [= <- <-]; auto | intros [= <- <-]; auto].
  destruct (send_log bot guild (Rich e) w) as [r0 w0] eqn:Hsend.
  apply server_send_log_effect in Hsend as [Hloaded Htrace].
  destruct r0 as [sent |]; intros [= <- <-]; (split; [exact Hloaded |]).
  - destruct Htrace as [-> | (i & _ & ->)]; [by left |].
    right. by exists i, e.
  - destruct Htrace as [-> | (i & [=] & _)]. by left.
Qed.

(** X10: when the formatter returns an embed and the store's answer converts
    to the id of a text channel of the guild, [on_guild_channel_update] sends
    that embed to that channel, and nothing else. *)
Theorem channel_update_is_logged bot now guild b a w e i c :
  make_channel_update_embed now b a = Ok (Some e) ->
  py_int (log_channels bot "server_log" (guild_id guild)) = Ok i ->
  channels guild !! i = Some c ->
  class c = TextChannel ->
  on_guild_channel_update bot now guild b a w =
    (Ok tt, {| loaded := loaded w; trace := trace w ++ [Sent i (Rich e)] |}).
Proof.
  intros Hmake Hint Hsome Hcls.
  unfold on_guild_channel_update, mbind, IO_bind, lift. rewrite Hmake.
  rewrite (server_send_log_resolved bot guild (Rich e) w i c Hint Hsome).
  by rewrite send_text.
Qed.

End ChannelUpdateListener.

(** X9 (witness): [general] is renamed to [lounge] and the server log is
    channel 42. *)
Lemma channel_update_logs_at_most_once_witness :
  @nil string = []
  /\ ([Sent 42 (Rich renamed_embed)] = []
      \/ exists i e,
           @ServerLog.make_channel_update_embed sample_platform 100 general lounge = Ok (Some e)
           /\ @Ok unit tt = Ok tt
           /\ [Sent 42 (Rich renamed_embed)] = ([] ++ [Sent i (Rich e)])%list).
Proof.
  apply (@channel_update_logs_at_most_once sample_platform (bot_with (VInt 42)) 100
           sample_guild general lounge empty_world (Ok tt)
           {| loaded := []; trace := [Sent 42 (Rich renamed_embed)] |}).
  vm_compute. reflexivity.
Defined.

(** X10 (witness): the same update, from the formatter to the channel. *)
Lemma channel_update_is_logged_witness :
  @ServerLog.on_guild_channel_update sample_platform (bot_with (VInt 42)) 100 sample_guild
    general lounge empty_world =
    (Ok tt, {| loaded := []; trace := [Sent 42 (Rich renamed_embed)] |}).
Proof.
  apply (@channel_update_is_logged sample_platform (bot_with (VInt 42)) 100 sample_guild
           general lounge empty_world renamed_embed 42 general).
  - vm_compute. reflexivity.
  - reflexivity.
  - reflexivity.
  - reflexivity.
Defined.

(** *** The voice-state listener, case by case *)

Section VoiceListener.
Import VoiceLog.

(** X11: one voice-state update makes [on_voice_state_update] send at most
    one message: the embed built for the update, with the member's avatar as
    thumbnail.  If the listener raises, or builds no embed, nothing is sent;
    the extensions loaded are untouched. *)
Theorem voice_update_logs_at_most_once bot member before after w r w' :
  on_voice_state_update bot member before after w = (r, w') ->
  loaded w' = loaded w
  /\ (trace w' = trace w
      \/ exists i e,
           voice_state_embed member before after = Some e
           /\ r = Ok tt
           /\ trace w' = (trace w ++ [Sent i (Rich (set_thumbnail (avatar_url member) e))])%list).
Proof.
  unfold on_voice_state_update.
  destruct (voice_state_embed member before after) as [e |]; [| intros [= <- <-]; auto].
  unfold send_log, mbind, IO_bind.
  destruct (get_channel _ _) as [c |]; [| intros [= <- <-]; auto].
  destruct (send c _ w) as [r0 w0] eqn:Hsend.
  apply send_effect in Hsend as [Hloaded [[-> Htrace] | [Hr Htrace]]].
  - intros [= <- <-]. simpl. split; [done |]. right. by exists c.1, e.
  - destruct r0 as [[] |]; [done |]. intros [= <- <-]. auto.
Qed.

(** X12: an update in which neither the AFK flag, nor the channel, nor the
    server deaf or mute flags change (a member muting their own microphone,
    streaming, turning the camera on) is not logged: the listener returns
    without sending. *)
Theorem untracked_voice_update_is_silent bot member before after w :
  afk before = afk after ->
  py_ne (channel_value before) (channel_value after) = false ->
  deaf before = deaf after ->
  mute before = mute after ->
  on_voice_state_update bot member before after w = (Ok tt, w).
Proof.
  intros Hafk Hchannel Hdeaf Hmute.
  unfold on_voice_state_update, voice_state_embed.
  by rewrite Hafk, Hchannel, Hdeaf, Hmute, !Bool.eqb_reflx.
Qed.

(** X13: the listener logs one change per update, the first in the order
    AFK, channel, deaf, mute.  A change of the AFK flag is logged as such
    whatever else changed in the same update, a channel change included; and
    when the deaf and mute flags change together, only the deaf change is
    logged. *)
Theorem voice_update_logs_first_change member before after :
  (afk before ≠ afk after ->
     voice_state_embed member before after =
       Some (mk_embed (if afk after then "User went AFK" else "User is no longer AFK")
               ("**User:** " +:+ member_mention member) blue))
  /\ (afk before = afk after ->
      py_ne (channel_value before) (channel_value after) = false ->
      deaf before ≠ deaf after ->
      voice_state_embed member before after =
        Some (mk_embed (if deaf after then "User deafened" else "User undeafened")
                ("**User:** " +:+ member_mention member) dark_orange)).
Proof.
  unfold voice_state_embed. split.
  - intros Hafk. apply Bool.eqb_false_iff in Hafk. by rewrite Hafk.
  - intros Hafk Hchannel Hdeaf. apply Bool.eqb_false_iff in Hdeaf.
    by rewrite Hafk, Bool.eqb_reflx, Hchannel, Hdeaf.
Qed.

(** X14: a member who ends up in a voice channel other than the one before,
    the AFK flag unchanged, is logged as "User changed channels", with the
    member, the channel before and the new channel.  This is also what a
    member joining voice is logged as; the channel before is then printed as
    [None]. *)
Theorem channel_change_description member before after i n :
  afk before = afk after ->
  py_ne (channel_value before) (channel_value after) = true ->
  channel after = Some (i, n) ->
  voice_state_embed member before after =
    Some (mk_embed "User changed channels"
            ("**User:** " +:+ member_mention member
             +:+ LF +:+ "**Channel:** "
             +:+ match channel before with Some (_, old) => old | None => "None" end
             +:+ LF +:+ "**New Channel:** " +:+ n)
            blue).
Proof.
  intros Hafk Hchannel Hafter. unfold voice_state_embed.
  rewrite Hafk, Bool.eqb_reflx, Hchannel. simpl.
  unfold channel_value. rewrite Hafter. simpl.
  by destruct (channel before) as [[j old] |].
Qed.

End VoiceListener.

(** X11 (witness): [alice] leaves voice; the voice log is channel 42. *)
Lemma voice_update_logs_at_most_once_witness :
  @nil string = []
  /\ ([Sent 42 (Rich (set_thumbnail "https://cdn.discordapp.com/avatars/9.png"
                        (mk_embed "User left voice channel" "" blue)))] = []
      \/ exists i e,
           VoiceLog.voice_state_embed alice in_voice out_of_voice = Some e
           /\ @Ok unit tt = Ok tt
           /\ [Sent 42 (Rich (set_thumbnail "https://cdn.discordapp.com/avatars/9.png"
                                (mk_embed "User left voice channel" "" blue)))]
              = ([] ++ [Sent i (Rich (set_thumbnail (VoiceLog.avatar_url alice) e))])%list).
Proof.
  apply (voice_update_logs_at_most_once (bot_with (VInt 42)) alice in_voice out_of_voice
           empty_world (Ok tt)
           {| loaded := [];
              trace := [Sent 42 (Rich (set_thumbnail "https://cdn.discordapp.com/avatars/9.png"
                                         (mk_embed "User left voice channel" "" blue)))] |}).
  vm_compute. reflexivity.
Defined.

(** X12 (witness): [alice] stays in General, nothing tracked changes. *)
Lemma untracked_voice_update_is_silent_witness :
  VoiceLog.on_voice_state_update (bot_with (VInt 42)) alice in_voice in_voice_again empty_world =
    (Ok tt, empty_world).
Proof.
  apply (untracked_voice_update_is_silent (bot_with (VInt 42)) alice in_voice in_voice_again
           empty_world); reflexivity.
Defined.

(** X13 (witness): [alice] leaves voice from the AFK channel; [alice] is
    deafened and muted at once. *)
Lemma voice_update_logs_first_change_witness :
  VoiceLog.voice_state_embed alice in_afk out_of_voice =
    Some (mk_embed "User is no longer AFK" "**User:** <@9>" blue)
  /\ VoiceLog.voice_state_embed alice in_voice in_voice_silenced =
       Some (mk_embed "User deafened" "**User:** <@9>" dark_orange).
Proof.
  split.
  - apply (proj1 (voice_update_logs_first_change alice in_afk out_of_voice)).
    discriminate.
  - apply (proj2 (voice_update_logs_first_change alice in_voice in_voice_silenced));
      [reflexivity | reflexivity | discriminate].
Defined.

(** X14 (witness): [alice] joins General. *)
Lemma channel_change_description_witness :
  VoiceLog.voice_state_embed alice out_of_voice in_voice =
    Some (mk_embed "User changed channels"
            ("**User:** <@9>" +:+ LF +:+ "**Channel:** None"
             +:+ LF +:+ "**New Channel:** General")
            blue).
Proof.
  apply (channel_change_description alice out_of_voice in_voice 50 "General"); reflexivity.
Defined.

(** *** The extension commands of the sudo cog *)

Section ExtensionCommands.
Context `{Platform}.
Import Sudo.

(** A named extension: the command loops over that one module. *)
Lemma extensions_of_named bot ext :
  ext ≠ "" -> extensions_of bot (Some ext) = ["bot.cogs." +:+ ext].
Proof. intros Hext. destruct ext; [contradiction | reflexivity]. Qed.






(** X16: [sudo load] of a named extension.  A module that is loaded already
    leaves the extensions as they are, and the answer is a traceback.
    Otherwise the module is imported: if that succeeds it is loaded and the
    answer is the OK sign; if it raises a [DiscordException] (not found, failed,
    no entry point) nothing is loaded and the answer is the traceback; if it
    raises anything else, [ModuleNotFoundError] for one, the command raises
    it and no answer is sent. *)
Theorem load_named_extension bot ctx ext w :
  ext ≠ "" ->
  let module := "bot.cogs." +:+ ext in
  load bot ctx (Some ext) w =
    if bool_decide (module ∈ loaded w) then
      (Ok tt, {| loaded := loaded w;
                 trace := trace w ++ [Sent (channel_id ctx)
                                        (traceback_message ExtensionAlreadyLoaded)] |})
    else
      match import_extension bot module with
      | None =>
          (Ok tt, {| loaded := loaded w ++ [module];
                     trace := trace w ++ [Sent (channel_id ctx) (Content SQUARED_OK)] |})
      | Some e =>
          if is_DiscordException e then
            (Ok tt, {| loaded := loaded w;
                       trace := trace w ++ [Sent (channel_id ctx) (traceback_message e)] |})
          else (Raise e, w)
      end.
Proof.
  intros Hext module. unfold load. rewrite extensions_of_named by done.
  fold module. simpl. unfold mbind, IO_bind, try_except_else, load_extension.
  destruct (bool_decide (module ∈ loaded w)); [reflexivity |].
  destruct (import_extension bot module) as [e |]; [| reflexivity].
  destruct (is_DiscordException e); reflexivity.
Qed.

(** X17: [sudo unload] of a named extension.  A loaded module is unloaded,
    after which it is not among the loaded extensions, and the answer is the
    OK sign; a module that is not loaded leaves the extensions as they are,
    and the answer is a traceback. *)
Theorem unload_named_extension bot ctx ext w :
  ext ≠ "" ->
  let module := "bot.cogs." +:+ ext in
  exists w',
    unload bot ctx (Some ext) w = (Ok tt, w')
    /\ (module ∉ loaded w')
    /\ (forall other, other ≠ module -> (other ∈ loaded w' <-> other ∈ loaded w))
    /\ trace w' =
         (trace w ++ [Sent (channel_id ctx)
                        (if bool_decide (module ∈ loaded w) then Content SQUARED_OK
                         else traceback_message ExtensionNotLoaded)])%list.
Proof.
  intros Hext module. unfold unload. rewrite extensions_of_named by done.
  fold module. simpl. unfold mbind, IO_bind, try_except_else, unload_extension.
  destruct (bool_decide (module ∈ loaded w)) eqn:Hloaded; simpl; eexists;
    (split; [reflexivity |]); simpl.
  - split; [| split; [| reflexivity]].
    + rewrite list_elem_of_filter. by intros [Hne _].
    + intros other Hother. rewrite list_elem_of_filter.
      split; [by intros [_ Hin] | by intros Hin].
  - split; [by apply bool_decide_eq_false_1 in Hloaded | done].
Qed.

(** X18: [sudo reload] of a named extension unloads it and loads it again.
    A module that is not loaded is not loaded by it either: unloading fails,
    loading is not tried, and the answer is a traceback.  A loaded module
    whose import succeeds stays loaded and the answer is the OK sign.  A
    loaded module whose import raises is left unloaded: the answer is the
    traceback if a [DiscordException] was raised, and otherwise the command
    raises and sends no answer. *)
Theorem reload_named_extension bot ctx ext w :
  ext ≠ "" ->
  let module := "bot.cogs." +:+ ext in
  reload bot ctx (Some ext) w =
    if bool_decide (module ∈ loaded w) then
      match import_extension bot module with
      | None =>
          (Ok tt, {| loaded := filter (fun e => e ≠ module) (loaded w) ++ [module];
                     trace := trace w ++ [Sent (channel_id ctx) (Content SQUARED_OK)] |})
      | Some e =>
          if is_DiscordException e then
            (Ok tt, {| loaded := filter (fun e => e ≠ module) (loaded w);
                       trace := trace w ++ [Sent (channel_id ctx) (traceback_message e)] |})
          else
            (Raise e, {| loaded := filter (fun e => e ≠ module) (loaded w);
                         trace := trace w |})
      end
    else
      (Ok tt, {| loaded := loaded w;
                 trace := trace w ++ [Sent (channel_id ctx)
                                        (traceback_message ExtensionNotLoaded)] |}).
Proof.
  intros Hext module. unfold reload. rewrite extensions_of_named by done.
  fold module. simpl. unfold mbind, IO_bind, try_except_else, unload_extension, load_extension.
  destruct (bool_decide (module ∈ loaded w)); [| reflexivity]. simpl.
  rewrite bool_decide_eq_false_2
    by (rewrite list_elem_of_filter; by intros [Hne _]).
  destruct (import_extension bot module) as [e |]; [| reflexivity].
  destruct (is_DiscordException e); reflexivity.
Qed.

(** X19: for an author in [config.devs] the cog's check passes without a
    trace, and [sudo shutdown] marks the message with ✅ and closes the bot,
    which unloads every extension; [sudo restart] does the same, then sleeps a
    second and runs [pipenv run start], after the bot has closed. *)
Theorem dev_shutdown_and_restart bot ctx w :
  author_id ctx ∈ devs ->
  invoke bot ctx Shutdown w =
    (Ok tt, {| loaded := [];
               trace := trace w ++ [Reacted (message_id ctx) "✅"; Closed] |})
  /\ invoke bot ctx Restart w =
       (Ok tt, {| loaded := [];
                  trace := trace w ++ [Reacted (message_id ctx) "✅"; Closed; Slept 1;
                                       System "pipenv run start"] |}).
Proof.
  intros Hdev. rewrite !invoke_dev by done. simpl.
  unfold shutdown, restart, is_dev. rewrite !bool_decide_eq_true_2 by done.
  unfold mbind, IO_bind, add_reaction, close, emit. simpl.
  rewrite <- !app_assoc. simpl. split; reflexivity.
Qed.

End ExtensionCommands.


(** X16 (witness): a dev asks to load an extension under a package that does
    not exist; the import raises [ModuleNotFoundError], and so does the
    command. *)
Lemma load_named_extension_witness :
  @Sudo.load sample_platform (bot_with VNone) dev_ctx (Some "nope.deep") sudo_loaded =
    (Raise ModuleNotFoundError, sudo_loaded).
Proof.
  rewrite (@load_named_extension sample_platform (bot_with VNone) dev_ctx
             "nope.deep" sudo_loaded) by discriminate.
  vm_compute. reflexivity.
Defined.

(** X17 (witness): the sudo cog is unloaded. *)
Lemma unload_named_extension_witness :
  exists w',
    @Sudo.unload sample_platform (bot_with VNone) dev_ctx (Some "sudo") sudo_loaded = (Ok tt, w')
    /\ (("bot.cogs." +:+ "sudo") ∉ loaded w')
    /\ (forall other, other ≠ "bot.cogs." +:+ "sudo" ->
          (other ∈ loaded w' <-> other ∈ loaded sudo_loaded))
    /\ trace w' =
         (trace sudo_loaded
          ++ [Sent (Sudo.channel_id dev_ctx)
                (if bool_decide (("bot.cogs." +:+ "sudo") ∈ loaded sudo_loaded)
                 then Content Sudo.SQUARED_OK
                 else @Sudo.traceback_message sample_platform ExtensionNotLoaded)])%list.
Proof.
  apply (@unload_named_extension sample_platform (bot_with VNone) dev_ctx "sudo" sudo_loaded).
  discriminate.
Defined.

(** X18 (witness): an extension whose module now fails on import is
    reloaded, and is left unloaded. *)
Lemma reload_named_extension_witness :
  @Sudo.reload sample_platform (bot_with VNone) dev_ctx (Some "fun") fun_loaded =
    (Ok tt, {| loaded := [];
               trace := [Sent 42 (@Sudo.traceback_message sample_platform ExtensionFailed)] |}).
Proof.
  rewrite (@reload_named_extension sample_platform (bot_with VNone) dev_ctx "fun" fun_loaded)
    by discriminate.
  vm_compute. reflexivity.
Defined.

(** X19 (witness): a dev asks for a restart while the sudo cog is loaded. *)
Lemma dev_shutdown_and_restart_witness :
  @Sudo.invoke sample_platform (bot_with VNone) dev_ctx Sudo.Restart sudo_loaded =
    (Ok tt, {| loaded := [];
               trace := [Reacted 901 "✅"; Closed; Slept 1; System "pipenv run start"] |}).
Proof.
  apply (@dev_shutdown_and_restart sample_platform (bot_with VNone) dev_ctx sudo_loaded).
  left.
Defined.
